(** * A shallow embedding of [etl.py]

  The pipeline reads raw CSV tables, renames and prunes their columns,
  derives the list of country codes of the fact table, asks a web
  service for one record per code, writes every table locally and to an
  S3 bucket, and finally inspects the written files.

  The embedding keeps the source's shape: every [process_*] function and
  [quality_checks] is a program in a state-and-exception monad over a
  [World] (local files, bucket, the web service, standard output).  The
  pandas, dask, json, glob and requests calls the source makes are
  modelled next to it, each with the behaviour the source relies on. *)

From Stdlib Require Import String Ascii List ZArith NArith Lia Bool.
From Stdlib Require Import Permutation DecimalString Decimal.
From Stdlib Require DecimalN DecimalPos.
Import ListNotations.
Local Open Scope string_scope.
Local Open Scope list_scope.

(* ================================================================== *)
(** * Python values, exceptions and string helpers *)

Module Py.

(** The exceptions the modelled calls can raise. *)
Inductive exn : Type :=
| KeyError (key : string)
| ValueError
| TypeError
| AttributeError
| IndexError
| FileNotFoundError (path : string)
| RequestException
| JSONDecodeError.

Inductive result (A : Type) : Type :=
| Ok (a : A)
| Raise (e : exn).
Arguments Ok {A} a.
Arguments Raise {A} e.

Definition bind_result {A B} (r : result A) (k : A -> result B) : result B :=
  match r with
  | Ok a => k a
  | Raise e => Raise e
  end.

(** [x in chars], for a character and the characters of a string. *)
Fixpoint char_in (c : ascii) (chars : string) : bool :=
  match chars with
  | EmptyString => false
  | String d rest => Ascii.eqb c d || char_in c rest
  end.

(** [s.lstrip(chars)]: every leading character that occurs in [chars]
    is removed. *)
Fixpoint lstrip (chars : string) (s : string) : string :=
  match s with
  | EmptyString => EmptyString
  | String c rest => if char_in c chars then lstrip chars rest else s
  end.

(** [sep.join(parts)]. *)
Definition join (sep : string) (parts : list string) : string :=
  String.concat sep parts.

(** [s.startswith(p)]. *)
Definition startswith (p s : string) : bool := String.prefix p s.

(** The characters of a string, as iterating over it yields them. *)
Fixpoint chars_of (s : string) : list string :=
  match s with
  | EmptyString => []
  | String c rest => String c EmptyString :: chars_of rest
  end.

Fixpoint zeros (n : nat) : string :=
  match n with
  | O => EmptyString
  | S k => String "0"%char (zeros k)
  end.

(** Decimal digits of a natural number, as [str] prints them. *)
Definition digits (n : N) : string :=
  NilZero.string_of_uint (N.to_uint n).

(** [str(z)] for an integer. *)
Definition str_int (z : Z) : string :=
  if (z <? 0)%Z then String "-"%char (digits (Z.abs_N z))
  else digits (Z.to_N z).

(** [f'{z:03d}']: zero fill to width 3, the sign (when there is one)
    counted in the width and kept in front of the zeros. *)
Definition format_03d (z : Z) : string :=
  if (z <? 0)%Z then
    let d := digits (Z.abs_N z) in
    String "-"%char (zeros (2 - String.length d) ++ d)
  else
    let d := digits (Z.to_N z) in
    zeros (3 - String.length d) ++ d.

(** [int(s)] restricted to what a CSV reader takes for an integer
    field: an optional minus sign followed by one or more digits. *)
Definition parse_nat (s : string) : option N :=
  match s with
  | EmptyString => None
  | _ => option_map N.of_uint (NilZero.uint_of_string s)
  end.

Definition parse_int (s : string) : option Z :=
  match s with
  | String "-"%char rest => option_map (fun n => (- Z.of_N n)%Z) (parse_nat rest)
  | _ => option_map Z.of_N (parse_nat s)
  end.

(** [key in l] for strings. *)
Definition mem (x : string) (l : list string) : bool :=
  existsb (String.eqb x) l.

(** Position of the first occurrence of a label. *)
Fixpoint index_of (x : string) (l : list string) : option nat :=
  match l with
  | [] => None
  | y :: rest =>
      if String.eqb x y then Some O
      else option_map S (index_of x rest)
  end.

End Py.
Export Py.

(* ================================================================== *)
(** * Parsed JSON documents, as [json.load] and [r.json()] return them *)

Module Json.

(** A dict keeps its insertion order, which [values()] and iteration
    follow, so an object is the list of its items.  Numbers are the
    integers; the source never inspects a number of a response. *)
#[warnings="-register-all"]
Inductive json : Type :=
| JNull
| JBool (b : bool)
| JNum (n : Z)
| JStr (s : string)
| JArr (items : list json)
| JObj (fields : list (string * json)).

(** [bool(v)], the test of an [if v:]. *)
Definition truthy (v : json) : bool :=
  match v with
  | JNull => false
  | JBool b => b
  | JNum n => negb (n =? 0)%Z
  | JStr s => negb (String.eqb s "")
  | JArr items => match items with [] => false | _ => true end
  | JObj fields => match fields with [] => false | _ => true end
  end.

Fixpoint lookup (key : string) (fields : list (string * json)) : option json :=
  match fields with
  | [] => None
  | (k, v) :: rest => if String.eqb key k then Some v else lookup key rest
  end.

(** [d[key] = v] on the items of a dict: an existing key keeps its
    place, a new one goes last. *)
Fixpoint update (key : string) (v : json) (fields : list (string * json))
  : list (string * json) :=
  match fields with
  | [] => [(key, v)]
  | (k, w) :: rest =>
      if String.eqb key k then (k, v) :: rest
      else (k, w) :: update key v rest
  end.

(** [del d[key]] on the items of a dict. *)
Definition remove (key : string) (fields : list (string * json))
  : list (string * json) :=
  filter (fun kv => negb (String.eqb key (fst kv))) fields.

(** [v[key]] with a string key: [KeyError] on a dict without the key,
    [TypeError] on anything that is not a dict. *)
Definition getitem (v : json) (key : string) : result json :=
  match v with
  | JObj fields =>
      match lookup key fields with
      | Some w => Ok w
      | None => Raise (KeyError key)
      end
  | _ => Raise TypeError
  end.

(** [v[key] = w]. *)
Definition setitem (v : json) (key : string) (w : json) : result json :=
  match v with
  | JObj fields => Ok (JObj (update key w fields))
  | _ => Raise TypeError
  end.

(** [del v[key]]. *)
Definition delitem (v : json) (key : string) : result json :=
  match v with
  | JObj fields =>
      match lookup key fields with
      | Some _ => Ok (JObj (remove key fields))
      | None => Raise (KeyError key)
      end
  | _ => Raise TypeError
  end.

(** [v.values()]: only a dict has the method. *)
Definition values (v : json) : result (list json) :=
  match v with
  | JObj fields => Ok (map snd fields)
  | _ => Raise AttributeError
  end.

(** What [for x in v] yields: the items of a list, the keys of a dict,
    the characters of a string; nothing else is iterable. *)
Definition iterate (v : json) : result (list json) :=
  match v with
  | JArr items => Ok items
  | JObj fields => Ok (map (fun kv => JStr (fst kv)) fields)
  | JStr s => Ok (map JStr (chars_of s))
  | _ => Raise TypeError
  end.

(** The operand check of [str.join]: every item has to be a string. *)
Fixpoint all_strings (items : list json) : result (list string) :=
  match items with
  | [] => Ok []
  | JStr s :: rest =>
      match all_strings rest with
      | Ok l => Ok (s :: l)
      | Raise e => Raise e
      end
  | _ :: _ => Raise TypeError
  end.

End Json.
Export Json.

(* ================================================================== *)
(** * The pandas operations the pipeline calls *)

Module Pandas.

(** A cell of a table.  The reader types a column as a whole: integers
    when every field of the column is one, text otherwise, with the
    empty field read as a missing value.  Fields pandas would read as
    floats, booleans or named missing-value markers stay text here; no
    step of the pipeline looks at such a cell. *)
Inductive value : Type :=
| VInt (z : Z)
| VStr (s : string)
| VNaN.

Definition value_eqb (a b : value) : bool :=
  match a, b with
  | VInt x, VInt y => (x =? y)%Z
  | VStr s, VStr t => String.eqb s t
  | VNaN, VNaN => true
  | _, _ => false
  end.

Fixpoint cells_eqb (r s : list value) : bool :=
  match r, s with
  | [], [] => true
  | a :: r', b :: s' => value_eqb a b && cells_eqb r' s'
  | _, _ => false
  end.

(** A row is its index label and its cells, one per column. *)
Definition row : Type := (Z * list value)%type.

Record DataFrame : Type := mkDataFrame {
  columns : list string;
  rows : list row
}.

(** A CSV file is the grid of its fields, header line first; quoting and
    line ends belong to the reader and the writer. *)
Definition grid : Type := list (list string).

(** ** [df.rename(columns=mapping)]
    A label that is a key of the mapping is replaced, any other label is
    kept, and a key that names no column is ignored (the default
    [errors='ignore']). *)
Definition rename_label (mapping : list (string * string)) (c : string) : string :=
  match find (fun kv => String.eqb c (fst kv)) mapping with
  | Some kv => snd kv
  | None => c
  end.

Definition rename (mapping : list (string * string)) (df : DataFrame) : DataFrame :=
  {| columns := map (rename_label mapping) (columns df);
     rows := rows df |}.

(** ** [df.drop(columns=labels)]
    Every label has to name a column (the default [errors='raise']); the
    [KeyError] carries the first label that names none. *)
Definition keep_mask (labels cols : list string) : list bool :=
  map (fun c => negb (mem c labels)) cols.

Fixpoint select {A : Type} (mask : list bool) (xs : list A) : list A :=
  match mask, xs with
  | b :: mask', x :: xs' => if b then x :: select mask' xs' else select mask' xs'
  | _, _ => []
  end.

Definition drop (labels : list string) (df : DataFrame) : result DataFrame :=
  match find (fun l => negb (mem l (columns df))) labels with
  | Some l => Raise (KeyError l)
  | None =>
      let mask := keep_mask labels (columns df) in
      Ok {| columns := select mask (columns df);
            rows := map (fun r => (fst r, select mask (snd r))) (rows df) |}
  end.

(** ** The positions of a list of labels, and the cells at them *)
Fixpoint positions (labels cols : list string) : result (list nat) :=
  match labels with
  | [] => Ok []
  | l :: rest =>
      match index_of l cols with
      | None => Raise (KeyError l)
      | Some p => bind_result (positions rest cols) (fun ps => Ok (p :: ps))
      end
  end.

Definition take (ps : list nat) (cells : list value) : list value :=
  map (fun p => nth p cells VNaN) ps.

(** ** [df[label]], the cells of one column *)
Definition getitem_column (label : string) (df : DataFrame) : result (list value) :=
  match index_of label (columns df) with
  | None => Raise (KeyError label)
  | Some p => Ok (map (fun r => nth p (snd r) VNaN) (rows df))
  end.

(** ** [series.str.lstrip(chars)]
    The [.str] accessor exists on a column of text only: it raises
    [AttributeError] on a column that has cells and no text among them.
    A cell that is not text becomes a missing value. *)
Definition is_text (v : value) : bool :=
  match v with VStr _ => true | _ => false end.

Definition str_accessor_ok (cells : list value) : bool :=
  match cells with
  | [] => true
  | _ => existsb is_text cells
  end.

Definition lstrip_cell (chars : string) (v : value) : value :=
  match v with
  | VStr s => VStr (lstrip chars s)
  | _ => VNaN
  end.

Definition str_lstrip (chars : string) (cells : list value) : result (list value) :=
  if str_accessor_ok cells then Ok (map (lstrip_cell chars) cells)
  else Raise AttributeError.

(** ** [df[label] = cells], for cells computed from the same frame
    The assignment is by position, row by row; a new label adds a last
    column. *)
Fixpoint replace_nth {A : Type} (p : nat) (x : A) (l : list A) : list A :=
  match p, l with
  | _, [] => []
  | O, _ :: rest => x :: rest
  | S q, y :: rest => y :: replace_nth q x rest
  end.

Definition setitem_row (pos : option nat) (rv : row * value) : row :=
  let '((label, cells), v) := rv in
  match pos with
  | Some p => (label, replace_nth p v cells)
  | None => (label, cells ++ [v])
  end.

Definition setitem_column (label : string) (cells : list value) (df : DataFrame)
  : DataFrame :=
  let pos := index_of label (columns df) in
  {| columns := match pos with
                | Some _ => columns df
                | None => columns df ++ [label]
                end;
     rows := map (setitem_row pos) (combine (rows df) cells) |}.

(** ** [df.drop_duplicates()] on the rows
    Of the rows with equal cells the first one stays, with its label. *)
Fixpoint drop_dups_from (seen : list (list value)) (rs : list row) : list row :=
  match rs with
  | [] => []
  | r :: rest =>
      if existsb (cells_eqb (snd r)) seen then drop_dups_from seen rest
      else r :: drop_dups_from (snd r :: seen) rest
  end.

(** ** [df.values], the rows as arrays of cells *)
Definition values_of (df : DataFrame) : list (list value) :=
  map snd (rows df).

(** ** [df.to_csv(path, index=..., header=...)]
    With [index] every line starts with the row label, and the header
    line with an empty name for it. *)
Definition render (v : value) : string :=
  match v with
  | VInt z => str_int z
  | VStr s => s
  | VNaN => ""
  end.

Definition to_csv_line (index : bool) (r : row) : list string :=
  if index then str_int (fst r) :: map render (snd r)
  else map render (snd r).

Definition to_csv_header (index : bool) (df : DataFrame) : list string :=
  if index then "" :: columns df else columns df.

Definition to_csv (index header : bool) (df : DataFrame) : grid :=
  (if header then [to_csv_header index df] else [])
  ++ map (to_csv_line index) (rows df).

(** ** [pd.read_csv(path)]
    The first line gives the labels, an empty one becoming
    [Unnamed: <position>]; the rows are labelled 0, 1, 2, ... *)
Definition header_label (j : nat) (name : string) : string :=
  if String.eqb name "" then "Unnamed: " ++ digits (N.of_nat j) else name.

Fixpoint header_labels (j : nat) (names : list string) : list string :=
  match names with
  | [] => []
  | n :: rest => header_label j n :: header_labels (S j) rest
  end.

Definition is_int_field (f : string) : bool :=
  match parse_int f with Some _ => true | None => false end.

Definition column_is_int (body : grid) (j : nat) : bool :=
  forallb (fun line => is_int_field (nth j line "")) body.

Definition read_field (as_int : bool) (f : string) : value :=
  if as_int then
    match parse_int f with Some z => VInt z | None => VNaN end
  else if String.eqb f "" then VNaN else VStr f.

Fixpoint read_line (as_int : list bool) (line : list string) : list value :=
  match as_int, line with
  | b :: as_int', f :: line' => read_field b f :: read_line as_int' line'
  | _, _ => []
  end.

Fixpoint range_index {A : Type} (start : Z) (l : list A) : list (Z * A) :=
  match l with
  | [] => []
  | x :: rest => (start, x) :: range_index (start + 1)%Z rest
  end.

Definition read_csv (g : grid) : DataFrame :=
  match g with
  | [] => {| columns := []; rows := [] |}
  | names :: body =>
      let as_int := map (column_is_int body) (seq 0 (length names)) in
      {| columns := header_labels 0 names;
         rows := range_index 0 (map (read_line as_int) body) |}
  end.

End Pandas.
Export Pandas.

(* ================================================================== *)
(** * The dask operations the fact pipeline calls *)

Module Dask.

(** A dask frame is a sequence of pandas frames over the same columns,
    one per block of the file; each block is read on its own, so its
    rows are labelled from 0 again. *)
Record DaskFrame : Type := mkDaskFrame {
  dcolumns : list string;
  partitions : list (list row)
}.

(** The file is cut after the given numbers of rows; what is left forms
    the last block, so there are [1 + length sizes] blocks. *)
Fixpoint split_blocks {A : Type} (sizes : list nat) (l : list A) : list (list A) :=
  match sizes with
  | [] => [l]
  | n :: rest => firstn n l :: split_blocks rest (skipn n l)
  end.

Definition relabel (rs : list row) : list row :=
  range_index 0 (map snd rs).

(** [dd.read_csv(path)]: the column types are fixed for the whole file,
    then every block is read with them. *)
Definition dd_read_csv (sizes : list nat) (g : grid) : DaskFrame :=
  let df := read_csv g in
  {| dcolumns := columns df;
     partitions := map relabel (split_blocks sizes (rows df)) |}.

Definition partition_frame (ddf : DaskFrame) (rs : list row) : DataFrame :=
  {| columns := dcolumns ddf; rows := rs |}.

(** [ddf[[l1, l2, ...]]] *)
Definition dd_getitem_columns (labels : list string) (ddf : DaskFrame)
  : result DaskFrame :=
  bind_result (positions labels (dcolumns ddf)) (fun ps =>
  Ok {| dcolumns := labels;
        partitions := map (map (fun r => (fst r, take ps (snd r)))) (partitions ddf) |}).

(** [ddf.drop_duplicates().compute()]: duplicates go inside every block,
    then in the concatenation of the blocks. *)
Definition dd_drop_duplicates_compute (ddf : DaskFrame) : DataFrame :=
  {| columns := dcolumns ddf;
     rows := drop_dups_from []
               (concat (map (drop_dups_from []) (partitions ddf))) |}.

(** [ddf.rename(columns=mapping)] *)
Definition dd_rename (mapping : list (string * string)) (ddf : DaskFrame) : DaskFrame :=
  {| dcolumns := map (rename_label mapping) (dcolumns ddf);
     partitions := partitions ddf |}.

(** [ddf.drop(columns=labels)] *)
Definition dd_drop (labels : list string) (ddf : DaskFrame) : result DaskFrame :=
  match find (fun l => negb (mem l (dcolumns ddf))) labels with
  | Some l => Raise (KeyError l)
  | None =>
      let mask := keep_mask labels (dcolumns ddf) in
      Ok {| dcolumns := select mask (dcolumns ddf);
            partitions :=
              map (map (fun r => (fst r, select mask (snd r)))) (partitions ddf) |}
  end.

(** [ddf[label] = ddf[label].str.lstrip(chars)]: the accessor is checked
    on the column as a whole, the cells are rewritten block by block. *)
Definition dd_lstrip_column (label chars : string) (ddf : DaskFrame)
  : result DaskFrame :=
  match index_of label (dcolumns ddf) with
  | None => Raise (KeyError label)
  | Some p =>
      let cells := map (fun r => nth p (snd r) VNaN) (concat (partitions ddf)) in
      if str_accessor_ok cells then
        Ok {| dcolumns := dcolumns ddf;
              partitions :=
                map (map (fun r =>
                            (fst r,
                             replace_nth p (lstrip_cell chars (nth p (snd r) VNaN))
                                         (snd r))))
                    (partitions ddf) |}
      else Raise AttributeError
  end.

(** [ddf.to_csv(path, single_file=True)]: the first block is written
    with the header line, every further block is appended to the same
    file without one; the row labels are written ([index] is left at its
    default). *)
Definition dd_to_csv_single_file (ddf : DaskFrame) : grid :=
  match partitions ddf with
  | [] => []
  | first :: others =>
      to_csv true true (partition_frame ddf first)
      ++ concat (map (fun rs => to_csv true false (partition_frame ddf rs)) others)
  end.

End Dask.
Export Dask.

(* ================================================================== *)
(** * The world the pipeline runs in *)

Module Env.

(** What a local file or a bucket object holds: a CSV grid, or the JSON
    document [json.dumps] wrote. *)
Inductive content : Type :=
| Csv (g : grid)
| JsonDoc (doc : list json).

Record file : Type := mkFile {
  data : content;
  st_size : N;
  ctime : Z
}.

(** The answer of [requests.get]: a status code and, when the body is
    JSON, its document. *)
Record response : Type := mkResponse {
  status_code : Z;
  body : option json
}.

(** Local files are listed in directory order, which is the order
    [glob] returns them in.  [http] is the web service: [None] stands
    for a call that raises (no connection, timeout).  [now] is the
    formatted current time, [clock] the creation time a new file gets,
    [dask_blocks] the row counts of the blocks dask cuts a file into. *)
Record World : Type := mkWorld {
  fs : list (string * file);
  bucket : list (string * file);
  http : string -> option response;
  http_log : list string;
  stdout : list string;
  now : string;
  clock : Z;
  dask_blocks : list nat
}.

Definition with_fs (w : World) (f : list (string * file)) : World :=
  mkWorld f (bucket w) (http w) (http_log w) (stdout w) (now w) (clock w)
          (dask_blocks w).

Definition with_bucket (w : World) (b : list (string * file)) : World :=
  mkWorld (fs w) b (http w) (http_log w) (stdout w) (now w) (clock w)
          (dask_blocks w).

Definition with_http_log (w : World) (l : list string) : World :=
  mkWorld (fs w) (bucket w) (http w) l (stdout w) (now w) (clock w)
          (dask_blocks w).

Definition with_stdout (w : World) (l : list string) : World :=
  mkWorld (fs w) (bucket w) (http w) (http_log w) l (now w) (clock w)
          (dask_blocks w).

(** ** Programs: state passing with exceptions
    A raised exception keeps the world as it was when it was raised. *)
Definition M (A : Type) : Type := World -> result A * World.

Definition ret {A : Type} (a : A) : M A := fun w => (Ok a, w).

Definition raise {A : Type} (e : exn) : M A := fun w => (Raise e, w).

Definition bind {A B : Type} (m : M A) (k : A -> M B) : M B :=
  fun w =>
    match m w with
    | (Ok a, w') => k a w'
    | (Raise e, w') => (Raise e, w')
    end.

Definition lift {A : Type} (r : result A) : M A := fun w => (r, w).

Declare Scope prog_scope.
Delimit Scope prog_scope with prog.
Notation "x <- m ;; k" := (bind m (fun x => k))
  (at level 61, m at next level, right associativity) : prog_scope.
Notation "m ;; k" := (bind m (fun _ => k))
  (at level 61, right associativity) : prog_scope.
Local Open Scope prog_scope.

(** ** Files *)
Fixpoint find_file (path : string) (l : list (string * file)) : option file :=
  match l with
  | [] => None
  | (p, f) :: rest => if String.eqb path p then Some f else find_file path rest
  end.

Definition remove_file (path : string) (l : list (string * file))
  : list (string * file) :=
  filter (fun pf => negb (String.eqb path (fst pf))) l.

Definition newline : string := String "010"%char EmptyString.

Definition csv_text (g : grid) : string :=
  String.concat "" (map (fun line => (join "," line ++ newline)%string) g).

(** The size of a CSV file: its fields, separators and line ends. *)
Definition csv_size (g : grid) : N := N.of_nat (String.length (csv_text g)).

(** Writing a path replaces what was there. *)
Definition write_file (path : string) (c : content) (size : N) : M unit :=
  fun w =>
    (Ok tt,
     with_fs w ((path, mkFile c size (clock w)) :: remove_file path (fs w))).

(** [print(line)] *)
Definition print (line : string) : M unit :=
  fun w => (Ok tt, with_stdout w (stdout w ++ [line])).

(** [pd.read_csv(path)] on the local files. *)
Definition pd_read_csv (path : string) : M DataFrame :=
  fun w =>
    match find_file path (fs w) with
    | None => (Raise (FileNotFoundError path), w)
    | Some f =>
        match data f with
        | Csv g => (Ok (read_csv g), w)
        | JsonDoc _ => (Raise ValueError, w)
        end
    end.

(** [dd.read_csv(path, encoding=...)] on the local files. *)
Definition dd_read (path : string) : M DaskFrame :=
  fun w =>
    match find_file path (fs w) with
    | None => (Raise (FileNotFoundError path), w)
    | Some f =>
        match data f with
        | Csv g => (Ok (dd_read_csv (dask_blocks w) g), w)
        | JsonDoc _ => (Raise ValueError, w)
        end
    end.

(** [df.to_csv(path, index=...)] *)
Definition df_to_csv (path : string) (index : bool) (df : DataFrame) : M unit :=
  let g := to_csv index true df in
  write_file path (Csv g) (csv_size g).

(** [ddf.to_csv(path, single_file=True)]: one path is written. *)
Definition ddf_to_csv_single_file (path : string) (ddf : DaskFrame) : M unit :=
  let g := dd_to_csv_single_file ddf in
  write_file path (Csv g) (csv_size g).

(** [json.load(open(path))] *)
Definition json_load (path : string) : M (list json) :=
  fun w =>
    match find_file path (fs w) with
    | None => (Raise (FileNotFoundError path), w)
    | Some f =>
        match data f with
        | JsonDoc doc => (Ok doc, w)
        | Csv _ => (Raise JSONDecodeError, w)
        end
    end.

(** [glob.glob(prefix + '*')]: the paths that extend the prefix inside
    the same directory. *)
Definition glob_prefix (prefix : string) : M (list string) :=
  fun w =>
    (Ok (filter
           (fun p =>
              startswith prefix p
              && negb (char_in "/"%char
                         (substring (String.length prefix)
                                    (String.length p - String.length prefix) p)))
           (map fst (fs w))),
     w).

(** [os.path.getctime(path)] *)
Definition getctime (w : World) (path : string) : Z :=
  match find_file path (fs w) with
  | Some f => ctime f
  | None => 0%Z
  end.

(** [max(paths, key=os.path.getctime)]: the first path among the newest
    ones; [ValueError] on an empty list. *)
Fixpoint newest (w : World) (best : string) (paths : list string) : string :=
  match paths with
  | [] => best
  | p :: rest =>
      if (getctime w best <? getctime w p)%Z then newest w p rest
      else newest w best rest
  end.

Definition max_by_ctime (paths : list string) : M string :=
  fun w =>
    match paths with
    | [] => (Raise ValueError, w)
    | p :: rest => (Ok (newest w p rest), w)
    end.

(** [os.path.isfile(path)] *)
Definition os_path_isfile (path : string) : M bool :=
  fun w =>
    (Ok (match find_file path (fs w) with Some _ => true | None => false end), w).

(** [os.stat(path).st_size] *)
Definition os_stat_size (path : string) : M N :=
  fun w =>
    match find_file path (fs w) with
    | Some f => (Ok (st_size f), w)
    | None => (Raise (FileNotFoundError path), w)
    end.

(** [datetime.now().strftime(...)] *)
Definition datetime_now : M string := fun w => (Ok (now w), w).

(** ** The bucket *)

(** [s3.upload_file(path, bucket, key)] *)
Definition s3_upload_file (path key : string) : M unit :=
  fun w =>
    match find_file path (fs w) with
    | None => (Raise (FileNotFoundError path), w)
    | Some f => (Ok tt, with_bucket w ((key, f) :: remove_file key (bucket w)))
    end.

(** ['Contents' in s3.list_objects_v2(Bucket=..., Prefix=prefix)] *)
Definition s3_has_prefix (prefix : string) : M bool :=
  fun w => (Ok (existsb (fun kf => startswith prefix (fst kf)) (bucket w)), w).

(** ** The web service *)

(** [requests.get(url, timeout=10)] *)
Definition requests_get (url : string) : M response :=
  fun w =>
    let w' := with_http_log w (http_log w ++ [url]) in
    match http w url with
    | Some r => (Ok r, w')
    | None => (Raise RequestException, w')
    end.

(** [r.json()] *)
Definition response_json (r : response) : M json :=
  match body r with
  | Some doc => ret doc
  | None => raise JSONDecodeError
  end.

End Env.
Export Env.

(* ================================================================== *)
(** * The pipeline *)

Module Etl.

Local Open Scope prog_scope.

(** ** Dimension tables: rename, prune, write, upload *)

Definition units_mapping : list (string * string) :=
  [("Unit Name", "unit_name"); ("Description", "description")].

Definition item_group_mapping : list (string * string) :=
  [("Item Group Code", "item_group_code"); ("Item Group", "item_group");
   ("Item Code", "item_code"); ("Item", "item")].

Definition item_group_dropped : list string :=
  ["Factor"; "CPC Code"; "HS Code"; "HS07 Code"; "HS12 Code"].

Definition flags_mapping : list (string * string) :=
  [("Flag", "flag"); ("Description", "description")].

Definition elements_mapping : list (string * string) :=
  [("Element Code", "element_code"); ("Element", "element");
   ("Unit", "unit"); ("Description", "description")].

Definition country_group_mapping : list (string * string) :=
  [("Country Group", "country_group"); ("Country", "country");
   ("M49 Code", "m49_code")].

Definition country_group_dropped : list string :=
  ["Country Group Code"; "Country Code"; "ISO2 Code"; "ISO3 Code"].

Definition world_data_mapping : list (string * string) :=
  [("Area Code (M49)", "area_code_m49"); ("Item Code", "item_code");
   ("Element Code", "element_code"); ("Year", "year"); ("Unit", "unit_name");
   ("Value", "value"); ("Flag", "flag_code")].

Definition world_data_dropped : list string :=
  ["Area Code"; "Area"; "Item Code (CPC)"; "Item"; "Element"; "Year Code"].

(** [df.rename(columns=mapping).drop(columns=dropped)]; a transform
    without a [drop] call has nothing to drop. *)
Definition rename_drop (mapping : list (string * string)) (dropped : list string)
  (df : DataFrame) : result DataFrame :=
  drop dropped (rename mapping df).

Definition process_units_data (final_directory : string) : M unit :=
  print "********* STEP 2 (units) START ************" ;;
  data_units <- pd_read_csv "data/Units.csv" ;;
  let data_units_final := rename units_mapping data_units in
  df_to_csv (final_directory ++ "/dim_unit.csv") false data_units_final ;;
  s3_upload_file (final_directory ++ "/dim_unit.csv") "dim_unit.csv" ;;
  print "********* STEP 2 (units) FINISHED ************".

Definition process_item_group_data (final_directory : string) : M unit :=
  print "********* STEP 3 (item group) START ************" ;;
  data_item_group <- pd_read_csv "data/ItemGroup.csv" ;;
  data_item_group_final <-
    lift (rename_drop item_group_mapping item_group_dropped data_item_group) ;;
  df_to_csv (final_directory ++ "/dim_item_group.csv") false data_item_group_final ;;
  s3_upload_file (final_directory ++ "/dim_item_group.csv") "dim_item_group.csv" ;;
  print "********* STEP 3 (item group) FINISHED ************".

Definition process_flags_data (final_directory : string) : M unit :=
  print "********* STEP 4 (flags) START ************" ;;
  data_flags <- pd_read_csv "data/Flags.csv" ;;
  let data_flag_final := rename flags_mapping data_flags in
  df_to_csv (final_directory ++ "/dim_flag.csv") false data_flag_final ;;
  s3_upload_file (final_directory ++ "/dim_flag.csv") "dim_flag.csv" ;;
  print "********* STEP 4 (flags) FINISHED ************".

Definition process_elements_data (final_directory : string) : M unit :=
  print "********* STEP 5 (elements) START ************" ;;
  data_elements <- pd_read_csv "data/Elements.csv" ;;
  let data_element_final := rename elements_mapping data_elements in
  df_to_csv (final_directory ++ "/dim_element.csv") false data_element_final ;;
  s3_upload_file (final_directory ++ "/dim_element.csv") "dim_element.csv" ;;
  print "********* STEP 5 (elements) FINISHED ************".

Definition process_country_group_data (final_directory : string) : M unit :=
  print "********* STEP 6 (country group) START ************" ;;
  data_country_group <- pd_read_csv "data/CountryGroup.csv" ;;
  data_country_group_final <-
    lift (rename_drop country_group_mapping country_group_dropped
                      data_country_group) ;;
  df_to_csv (final_directory ++ "/dim_country_group.csv") false
            data_country_group_final ;;
  s3_upload_file (final_directory ++ "/dim_country_group.csv")
                 "dim_country_group.csv" ;;
  print "********* STEP 6 (country group) FINISHED ************".

(** ** The fact table and the list of countries *)

(** [world_data[['Area', 'Area Code (M49)']].drop_duplicates().compute()]
    followed by the [lstrip] of the code column. *)
Definition extract_countries (world_data : DaskFrame) : result DataFrame :=
  bind_result (dd_getitem_columns ["Area"; "Area Code (M49)"] world_data)
    (fun selected =>
  let countries := dd_drop_duplicates_compute selected in
  bind_result (getitem_column "Area Code (M49)" countries) (fun codes =>
  bind_result (str_lstrip "'" codes) (fun stripped =>
  Ok (setitem_column "Area Code (M49)" stripped countries)))).

(** The [rename], the [drop] and the [lstrip] of the fact table. *)
Definition transform_world_data (world_data : DaskFrame) : result DaskFrame :=
  bind_result (dd_drop world_data_dropped (dd_rename world_data_mapping world_data))
    (fun world_data_final =>
  dd_lstrip_column "area_code_m49" "'" world_data_final).

Definition process_world_file_data (final_directory : string) : M unit :=
  print "********* STEP 7 (world data) START ************" ;;
  world_data <- dd_read "data/WorldData.csv" ;;
  countries <- lift (extract_countries world_data) ;;
  str_current_datetime <- datetime_now ;;
  df_to_csv ("data/countries_list_" ++ str_current_datetime ++ ".csv") true
            countries ;;
  world_data_final <- lift (transform_world_data world_data) ;;
  ddf_to_csv_single_file (final_directory ++ "/fact_world_data.csv")
                         world_data_final ;;
  s3_upload_file (final_directory ++ "/fact_world_data.csv") "fact_world_data.csv" ;;
  print "********* STEP 7 (world data) FINISHED ************".

(** ** The country dimension *)

(** [f'{i[2]:03d}'] for one row of [df_countries.values]. *)
Definition country_code (i : list value) : result string :=
  match nth_error i 2 with
  | None => Raise IndexError
  | Some (VInt z) => Ok (format_03d z)
  | Some _ => Raise ValueError
  end.

(** The loop that fills [list_of_countries]. *)
Fixpoint country_codes (vals : list (list value)) (list_of_countries : list string)
  : result (list string) :=
  match vals with
  | [] => Ok list_of_countries
  | i :: rest =>
      bind_result (country_code i) (fun code =>
      country_codes rest (list_of_countries ++ [code]))
  end.

Definition country_url (i : string) : string :=
  "https://restcountries.com/v3.1/alpha/" ++ i
  ++ "?fields=ccn3,flags,name,capital,languages,area,population".

(** The loop over [list_of_countries] that fills [result_file_countries]:
    a status of 201 or more goes to the next code. *)
Fixpoint fetch_countries (list_of_countries : list string)
  (result_file_countries : list json) : M (list json) :=
  match list_of_countries with
  | [] => ret result_file_countries
  | i :: rest =>
      r <- requests_get (country_url i) ;;
      if (201 <=? status_code r)%Z then fetch_countries rest result_file_countries
      else
        data <- response_json r ;;
        fetch_countries rest (result_file_countries ++ [data])
  end.

Section Library.

(** Library calls whose result the pipeline only passes on: [str] of a
    value that is not a string, [json.dumps(..., indent=4)] and
    [pd.json_normalize]. *)
Variable py_repr : json -> string.
Variable json_dumps : list json -> string.
Variable json_normalize : list json -> result DataFrame.

(** [str(value)] *)
Definition py_str (v : json) : string :=
  match v with
  | JStr s => s
  | _ => py_repr v
  end.

(** The body of the loop over [data_ctb]. *)
Definition normalize_item (item : json) : result json :=
  bind_result (getitem item "languages") (fun languages =>
  bind_result
    (if truthy languages then
       bind_result (values languages) (fun vs =>
       setitem item "languages" (JStr (join ", " (map py_str vs))))
     else Ok item) (fun item =>
  bind_result (getitem item "capital") (fun capital =>
  bind_result
    (if truthy capital then
       bind_result (iterate capital) (fun vs =>
       bind_result (all_strings vs) (fun parts =>
       setitem item "capital" (JStr (join ", " parts))))
     else Ok item) (fun item =>
  bind_result (getitem item "name") (fun name =>
  bind_result (getitem name "nativeName") (fun native_name =>
  if truthy native_name then
    bind_result (delitem name "nativeName") (fun name' =>
    setitem item "name" name')
  else Ok item)))))).

(** The loop over [data_ctb] that fills [countries_info_data]. *)
Fixpoint normalize_items (data_ctb : list json) (countries_info_data : list json)
  : result (list json) :=
  match data_ctb with
  | [] => Ok countries_info_data
  | item :: rest =>
      bind_result (normalize_item item) (fun item' =>
      normalize_items rest (countries_info_data ++ [item']))
  end.

Definition process_countries_data (final_directory : string) : M unit :=
  print "********* STEP 8 (API countries) START ************" ;;
  list_of_files <- glob_prefix "data/countries_list_" ;;
  latest_file <- max_by_ctime list_of_files ;;
  print latest_file ;;
  df_countries <- pd_read_csv latest_file ;;
  list_of_countries <- lift (country_codes (values_of df_countries) []) ;;
  print (digits (N.of_nat (length list_of_countries))) ;;
  result_file_countries <- fetch_countries list_of_countries [] ;;
  write_file "data/countries_info.json" (JsonDoc result_file_countries)
             (N.of_nat (String.length (json_dumps result_file_countries))) ;;
  data_ctb <- json_load "data/countries_info.json" ;;
  countries_info_data <- lift (normalize_items data_ctb []) ;;
  countries_info_data_final <- lift (json_normalize countries_info_data) ;;
  df_to_csv (final_directory ++ "/dim_country_info.csv") true
            countries_info_data_final ;;
  s3_upload_file (final_directory ++ "/dim_country_info.csv") "dim_country_info.csv" ;;
  print "********* STEP 8 (API countries) FINISHED ************".

End Library.

(** ** The checks on the written files *)

(** One block of [quality_checks]: the three checks of one file. *)
Definition check_artifact (name : string) : M unit :=
  let path := ("output/" ++ name)%string in
  is_file <- os_path_isfile path ;;
  (if is_file then print "The file is saved in the correct local folder"
   else print "The file not in saved, or in the wrong folder!") ;;
  size <- os_stat_size path ;;
  (if negb (size =? 0)%N then print "The file is not empty"
   else print "The file is EMPTY!") ;;
  has_contents <- s3_has_prefix name ;;
  if has_contents then print "Object has fully uploaded to S3"
  else print "Object has not fully uploaded to S3".

Definition quality_checks : M unit :=
  print "********* STEP 9 (quality checks) START ************" ;;
  check_artifact "dim_unit.csv" ;;
  check_artifact "dim_item_group.csv" ;;
  check_artifact "dim_flag.csv" ;;
  check_artifact "dim_element.csv" ;;
  check_artifact "dim_country_group.csv" ;;
  check_artifact "fact_world_data.csv" ;;
  check_artifact "dim_country_info.csv" ;;
  print "********* STEP 9 (quality checks) FINISHED ************".

(** The files [quality_checks] goes through, in its order. *)
Definition expected_artifacts : list string :=
  ["dim_unit.csv"; "dim_item_group.csv"; "dim_flag.csv"; "dim_element.csv";
   "dim_country_group.csv"; "fact_world_data.csv"; "dim_country_info.csv"].


(** The rename-and-drop pairs of the source: the two dimension tables
    that drop columns, and the fact table. *)
Definition rename_drop_calls : list (list (string * string) * list string) :=
  [(item_group_mapping, item_group_dropped);
   (country_group_mapping, country_group_dropped);
   (world_data_mapping, world_data_dropped)].

End Etl.
Export Etl.

(* ================================================================== *)
(** * Vocabulary of the statements *)

Module Vocabulary.

(** No dropped label is a key or a target of the mapping. *)
Definition separated (mapping : list (string * string)) (dropped : list string)
  : bool :=
  forallb (fun l => negb (mem l (map fst mapping)) && negb (mem l (map snd mapping)))
          dropped.

(** The shapes with which the two flattening branches go through: a
    non-empty [languages] has to be a mapping, a non-empty [capital]
    something iterable that yields strings. *)
Definition languages_shape (languages : json) : Prop :=
  truthy languages = true -> exists m, languages = JObj m.

(** The same for [capital]. *)
Definition capital_shape (capital : json) : Prop :=
  truthy capital = true ->
  exists parts, bind_result (iterate capital) all_strings = Ok parts.

(** What one code adds to [result_file_countries]: the document of its
    answer when the status is below 201, nothing otherwise. *)
Definition record_of (service : string -> option response) (code : string)
  : list json :=
  match service (country_url code) with
  | Some r =>
      if (201 <=? status_code r)%Z then []
      else match body r with Some doc => [doc] | None => [] end
  | None => []
  end.

(** The call for a code returns, and with a document when the status is
    below 201. *)
Definition answers (service : string -> option response) (code : string) : Prop :=
  exists r, service (country_url code) = Some r
            /\ ((status_code r < 201)%Z -> exists doc, body r = Some doc).

(** The lines [quality_checks] prints for the three checks of one file. *)
Definition line_exists (present : bool) : string :=
  if present then "The file is saved in the correct local folder"
  else "The file not in saved, or in the wrong folder!".

(** The line of the size check. *)
Definition line_non_empty (size : N) : string :=
  if negb (size =? 0)%N then "The file is not empty" else "The file is EMPTY!".

(** The line of the bucket check. *)
Definition line_uploaded (listed : bool) : string :=
  if listed then "Object has fully uploaded to S3"
  else "Object has not fully uploaded to S3".

(** Whether the bucket lists an object under the name as prefix. *)
Definition listed (w : World) (name : string) : bool :=
  existsb (fun kf => startswith name (fst kf)) (bucket w).

(** The cells of the second column with their leading quotes stripped. *)
Definition strip_code (cells : list value) : list value :=
  replace_nth 1 (lstrip_cell "'" (nth 1 cells VNaN)) cells.

(** The distinct rows of the two selected columns, as
    [drop_duplicates().compute()] leaves them. *)
Definition distinct_rows (ps : list nat) (ddf : DaskFrame) : list row :=
  drop_dups_from []
    (concat (map (drop_dups_from [])
                 (map (map (fun r : row => (fst r, take ps (snd r))))
                      (partitions ddf)))).

(** The two labels selected from the fact table. *)
Definition country_labels : list string := ["Area"; "Area Code (M49)"].

(** The cells of all rows of a dask frame, block after block. *)
Definition data_of (ddf : DaskFrame) : list (list value) :=
  map snd (concat (partitions ddf)).

(** What the fact transform makes of the cells of one row: the cells of
    the dropped columns go, the cell at position [p] loses its leading
    quotes. *)
Definition fact_cells (cols : list string) (p : nat) (cells : list value)
  : list value :=
  let kept :=
    select (keep_mask world_data_dropped
              (map (rename_label world_data_mapping) cols)) cells in
  replace_nth p (lstrip_cell "'" (nth p kept VNaN)) kept.

(** The columns of the fact table after the rename and the drop. *)
Definition fact_columns (cols : list string) : list string :=
  select (keep_mask world_data_dropped
            (map (rename_label world_data_mapping) cols))
         (map (rename_label world_data_mapping) cols).

(** The same world with another cut into blocks. *)
Definition with_dask_blocks (w : World) (sizes : list nat) : World :=
  mkWorld (fs w) (bucket w) (http w) (http_log w) (stdout w) (now w) (clock w)
          sizes.

(** The first line [process_world_file_data] prints. *)
Definition world_start_line : string :=
  "********* STEP 7 (world data) START ************".

(** The last one. *)
Definition world_finish_line : string :=
  "********* STEP 7 (world data) FINISHED ************".

(** The path of the list of countries written at the time of the world. *)
Definition countries_path (w : World) : string :=
  "data/countries_list_" ++ now w ++ ".csv".

(** The path of the fact file. *)
Definition fact_path (final_directory : string) : string :=
  final_directory ++ "/fact_world_data.csv".

(** A CSV file as [to_csv] creates it in a world. *)
Definition csv_file (g : grid) (w : World) : file :=
  mkFile (Csv g) (csv_size g) (clock w).

(** The world after a table was written, uploaded and the last line
    printed. *)
Definition after_write (w : World) (path key : string) (g : grid)
  (first last : string) : World :=
  mkWorld ((path, csv_file g w) :: remove_file path (fs w))
          ((key, csv_file g w) :: remove_file key (bucket w))
          (http w) (http_log w) (stdout w ++ [first; last])
          (now w) (clock w) (dask_blocks w).








(** The local file at a path holds a grid. *)
Definition holds (w : World) (path : string) (g : grid) : Prop :=
  option_map data (find_file path (fs w)) = Some (Csv g).

End Vocabulary.
Export Vocabulary.

(* ================================================================== *)
(** * Small inputs for the examples *)

Module Examples.

(** An item-group table with every dropped column and every mapped
    column but ['Item']. *)
Definition item_group_without_item : DataFrame :=
  {| columns := ["Item Group Code"; "Item Group"; "Item Code"; "Factor";
                 "CPC Code"; "HS Code"; "HS07 Code"; "HS12 Code"];
     rows := [(0%Z, [VInt 1714; VStr "Cereals"; VInt 15; VInt 1;
                     VStr "0111"; VStr "1001"; VStr "1001"; VStr "1001"])] |}.

(** An item-group table without the dropped column ['Factor']. *)
Definition item_group_without_factor : DataFrame :=
  {| columns := ["Item Group Code"; "Item Group"; "Item Code"; "Item";
                 "CPC Code"; "HS Code"; "HS07 Code"; "HS12 Code"];
     rows := [(0%Z, [VInt 1714; VStr "Cereals"; VInt 15; VStr "Wheat";
                     VStr "0111"; VStr "1001"; VStr "1001"; VStr "1001"])] |}.

(** The [Units.csv] of the example: two columns, two rows. *)
Definition units_csv : grid :=
  [["Unit Name"; "Description"];
   ["ha"; "hectares"];
   ["tonnes"; "metric tonnes"]].

(** A record as the service answers for Afghanistan. *)
Definition afghanistan : list (string * json) :=
  [("name", JObj [("common", JStr "Afghanistan");
                  ("official", JStr "Islamic Republic of Afghanistan");
                  ("nativeName",
                   JObj [("prs", JObj [("common", JStr "Afghanestan")])])]);
   ("capital", JArr [JStr "Kabul"]);
   ("languages", JObj [("prs", JStr "Dari"); ("pus", JStr "Pashto");
                       ("tuk", JStr "Turkmen")]);
   ("area", JNum 652230);
   ("population", JNum 40218234)].

(** A record with a capital and with empty [languages] and
    [nativeName]. *)
Definition no_languages : list (string * json) :=
  [("name", JObj [("common", JStr "Norfolk Island"); ("nativeName", JObj [])]);
   ("capital", JArr [JStr "Kingston"]);
   ("languages", JObj []);
   ("area", JNum 36)].


(** The service of the example in the specification: 004 and 008 are
    known, anything else is answered with 404. *)
Definition example_service (url : string) : option response :=
  if String.eqb url (country_url "004") then
    Some (mkResponse 200 (Some (JObj [("ccn3", JStr "004")])))
  else if String.eqb url (country_url "008") then
    Some (mkResponse 200 (Some (JObj [("ccn3", JStr "008")])))
  else Some (mkResponse 404 (Some (JObj [("status", JNum 404)]))).

(** A world with that service and nothing else. *)
Definition example_world : World :=
  mkWorld [] [] example_service [] [] "2024-01-01T00-00-00" 0 [].

(** A file of two lines. *)
Definition small_file : file := mkFile (Csv [["a"]; ["1"]]) 4 0.

(** A world in which six of the seven files were written, two of them
    uploaded, and [dim_flag.csv] is missing. *)
Definition world_without_dim_flag : World :=
  mkWorld
    [("output/dim_unit.csv", small_file);
     ("output/dim_item_group.csv", small_file);
     ("output/dim_element.csv", small_file);
     ("output/dim_country_group.csv", small_file);
     ("output/fact_world_data.csv", small_file);
     ("output/dim_country_info.csv", small_file)]
    [("dim_unit.csv", small_file); ("dim_item_group.csv", small_file)]
    (fun _ => None) [] [] "2024-01-01T00-00-00" 0 [].

(** A small [WorldData.csv]: the header and three rows for two
    countries. *)
Definition world_data_header : list string :=
  ["Area Code"; "Area Code (M49)"; "Area"; "Item Code"; "Item Code (CPC)";
   "Item"; "Element Code"; "Element"; "Year Code"; "Year"; "Unit"; "Value";
   "Flag"].

(** Its three rows. *)
Definition row_afghanistan_1961 : list string :=
  ["2"; "'004"; "Afghanistan"; "15"; "'0111"; "Wheat"; "5312";
   "Area harvested"; "1961"; "1961"; "ha"; "100"; "A"].

(** The second one. *)
Definition row_afghanistan_1962 : list string :=
  ["2"; "'004"; "Afghanistan"; "15"; "'0111"; "Wheat"; "5312";
   "Area harvested"; "1962"; "1962"; "ha"; "120"; "A"].

(** The third one. *)
Definition row_albania_1961 : list string :=
  ["3"; "'008"; "Albania"; "15"; "'0111"; "Wheat"; "5312";
   "Area harvested"; "1961"; "1961"; "ha"; "7"; "E"].

(** The file. *)
Definition world_data_csv : grid :=
  [world_data_header; row_afghanistan_1961; row_afghanistan_1962;
   row_albania_1961].

(** The same file with its first two rows exchanged. *)
Definition world_data_csv_shuffled : grid :=
  [world_data_header; row_afghanistan_1962; row_afghanistan_1961;
   row_albania_1961].

(** A world that holds that [WorldData.csv] and reads it in one block;
    the service is out of reach. *)
Definition fact_world : World :=
  mkWorld [("data/WorldData.csv", mkFile (Csv world_data_csv) 400 0)]
          [] (fun _ => None) [] [] "2024-01-01T00-00-00" 0 [].

(** The header line of the fact file. *)
Definition fact_header : list string :=
  [""; "area_code_m49"; "item_code"; "element_code"; "year"; "unit_name";
   "value"; "flag_code"].

(** A record as the service answers for Albania. *)
Definition albania : list (string * json) :=
  [("name", JObj [("common", JStr "Albania");
                  ("nativeName",
                   JObj [("sqi", JObj [("common", JStr "Shqiperia")])])]);
   ("capital", JArr [JStr "Tirana"]);
   ("languages", JObj [("sqi", JStr "Albanian")]);
   ("area", JNum 28748)].

(** A service that knows 004 and 008 and answers 404 otherwise. *)
Definition country_service (url : string) : option response :=
  if String.eqb url (country_url "004") then
    Some (mkResponse 200 (Some (JObj afghanistan)))
  else if String.eqb url (country_url "008") then
    Some (mkResponse 200 (Some (JObj albania)))
  else Some (mkResponse 404 (Some (JObj [("status", JNum 404)]))).

(** A world with that service and the small [WorldData.csv]. *)
Definition pipeline_world : World :=
  mkWorld [("data/WorldData.csv", mkFile (Csv world_data_csv) 400 0)]
          [] country_service [] [] "2024-01-01T00-00-00" 0 [].

(** The cell for a field that holds a string. *)
Definition text_cell (v : option json) : value :=
  match v with
  | Some (JStr s) => VStr s
  | _ => VNaN
  end.

(** A stand-in for [pd.json_normalize] in the examples: the table of
    the two flattened fields. *)
Definition two_column_table (items : list json) : result DataFrame :=
  Ok {| columns := ["capital"; "languages"];
        rows := range_index 0
                  (map (fun item =>
                          match item with
                          | JObj fields =>
                              [text_cell (lookup "capital" fields);
                               text_cell (lookup "languages" fields)]
                          | _ => [VNaN; VNaN]
                          end) items) |}.

(** That world after [process_world_file_data]. *)
Definition pipeline_world_1 : World :=
  snd (process_world_file_data "output" pipeline_world).

(** And after [process_countries_data]. *)
Definition pipeline_world_2 : World :=
  snd (process_countries_data (fun _ => "") (fun _ => "[]") two_column_table
         "output" pipeline_world_1).

End Examples.
Export Examples.

(* ================================================================== *)
(** * Vocabulary of the further statements *)

Module MoreVocabulary.

(** The five dimension steps: the file read, the name of the file
    written and of the object uploaded, the function, and the transform
    it applies to the frame it read. *)
Definition dimension_steps
  : list (string * string * (string -> M unit) * (DataFrame -> result DataFrame)) :=
  [("data/Units.csv", "dim_unit.csv", process_units_data,
    fun df => Ok (rename units_mapping df));
   ("data/ItemGroup.csv", "dim_item_group.csv", process_item_group_data,
    rename_drop item_group_mapping item_group_dropped);
   ("data/Flags.csv", "dim_flag.csv", process_flags_data,
    fun df => Ok (rename flags_mapping df));
   ("data/Elements.csv", "dim_element.csv", process_elements_data,
    fun df => Ok (rename elements_mapping df));
   ("data/CountryGroup.csv", "dim_country_group.csv", process_country_group_data,
    rename_drop country_group_mapping country_group_dropped)].

(** A program leaves a component of the world as it was, whatever its
    outcome. *)
Definition preserves {A S : Type} (component : World -> S) (m : M A) : Prop :=
  forall w, component (snd (m w)) = component w.

(** A program that raises leaves a component of the world as it was. *)
Definition kept_on_raise {A S : Type} (component : World -> S) (m : M A) : Prop :=
  forall w e w', m w = (Raise e, w') -> component w' = component w.

(** The steps of the pipeline other than the country step. *)
Definition offline_steps (final_directory : string) : list (M unit) :=
  [process_units_data final_directory;
   process_item_group_data final_directory;
   process_flags_data final_directory;
   process_elements_data final_directory;
   process_country_group_data final_directory;
   process_world_file_data final_directory;
   quality_checks].

(** The steps that upload a file. *)
Definition upload_steps (py_repr : json -> string)
  (json_dumps : list json -> string)
  (json_normalize : list json -> result DataFrame)
  (final_directory : string) : list (M unit) :=
  [process_units_data final_directory;
   process_item_group_data final_directory;
   process_flags_data final_directory;
   process_elements_data final_directory;
   process_country_group_data final_directory;
   process_world_file_data final_directory;
   process_countries_data py_repr json_dumps json_normalize final_directory].







(** The exception that ends the loop over the codes at a code: the one
    [requests.get] raises when the call fails, the one [r.json()] raises
    when an answer below 201 has no JSON body. *)
Definition call_error (service : string -> option response) (code : string)
  : option exn :=
  match service (country_url code) with
  | None => Some RequestException
  | Some r =>
      if (201 <=? status_code r)%Z then None
      else match body r with
           | Some _ => None
           | None => Some JSONDecodeError
           end
  end.

(** The first line [process_countries_data] prints. *)
Definition countries_start_line : string :=
  "********* STEP 8 (API countries) START ************".

(** What [process_countries_data] does once the codes are there. *)
Definition after_codes (py_repr : json -> string)
  (json_dumps : list json -> string)
  (json_normalize : list json -> result DataFrame)
  (final_directory : string) (list_of_countries : list string) : M unit :=
  bind (fetch_countries list_of_countries []) (fun result_file_countries =>
  bind (write_file "data/countries_info.json" (JsonDoc result_file_countries)
          (N.of_nat (String.length (json_dumps result_file_countries))))
       (fun _ =>
  bind (json_load "data/countries_info.json") (fun data_ctb =>
  bind (lift (normalize_items py_repr data_ctb [])) (fun countries_info_data =>
  bind (lift (json_normalize countries_info_data))
       (fun countries_info_data_final =>
  bind (df_to_csv (final_directory ++ "/dim_country_info.csv") true
          countries_info_data_final) (fun _ =>
  bind (s3_upload_file (final_directory ++ "/dim_country_info.csv")
          "dim_country_info.csv") (fun _ =>
  print "********* STEP 8 (API countries) FINISHED ************"))))))).



(** The codes of a list of countries, and of a fact table whose code
    column is at position [p]. *)
Definition codes_at (p : nat) (data : list (list value)) : list value :=
  map (fun cells => nth p cells VNaN) data.


End MoreVocabulary.
Export MoreVocabulary.

(* ================================================================== *)
(** * Further examples *)

Module MoreExamples.

(** A world that holds the [Units.csv] of the example and nothing
    else. *)
Definition units_world : World :=
  mkWorld [("data/Units.csv", mkFile (Csv units_csv) 60 0)]
          [] (fun _ => None) [] [] "2024-01-01T00-00-00" 0 [].



(** A world whose [WorldData.csv] is a given grid. *)
Definition world_with_data (g : grid) : World :=
  mkWorld [("data/WorldData.csv", mkFile (Csv g) 100 0)]
          [] (fun _ => None) [] [] "2024-01-01T00-00-00" 0 [].


(** A fact file with the two columns of the list of countries and none
    of the others. *)
Definition world_data_two_columns : grid :=
  [["Area"; "Area Code (M49)"]; ["Afghanistan"; "'004"]].

(** The list of countries extracted from the small [WorldData.csv]. *)
Definition small_countries : DataFrame :=
  {| columns := ["Area"; "Area Code (M49)"];
     rows := [(0%Z, [VStr "Afghanistan"; VStr "004"]);
              (2%Z, [VStr "Albania"; VStr "008"])] |}.

(** The fact table made of it, read in one block. *)
Definition small_fact : DaskFrame :=
  {| dcolumns := ["area_code_m49"; "item_code"; "element_code"; "year";
                  "unit_name"; "value"; "flag_code"];
     partitions :=
       [[(0%Z, [VStr "004"; VInt 15; VInt 5312; VInt 1961; VStr "ha";
                VInt 100; VStr "A"]);
         (1%Z, [VStr "004"; VInt 15; VInt 5312; VInt 1962; VStr "ha";
                VInt 120; VStr "A"]);
         (2%Z, [VStr "008"; VInt 15; VInt 5312; VInt 1961; VStr "ha";
                VInt 7; VStr "E"])]] |}.

(** A world in which [dim_unit.csv] was written and an object with a
    longer key is in the bucket. *)
Definition world_with_backup_object : World :=
  mkWorld [("output/dim_unit.csv", small_file)]
          [("dim_unit.csv.bak", small_file)]
          (fun _ => None) [] [] "2024-01-01T00-00-00" 0 [].

(** A service that knows 004 and cannot be reached for anything else. *)
Definition flaky_service (url : string) : option response :=
  if String.eqb url (country_url "004") then
    Some (mkResponse 200 (Some (JObj afghanistan)))
  else None.

(** A list of countries as the fact step writes it. *)
Definition countries_list_csv : grid :=
  [[""; "Area"; "Area Code (M49)"];
   ["0"; "Afghanistan"; "004"];
   ["2"; "Albania"; "008"]].

(** A world with an older and a newer list of countries and a given
    service. *)
Definition listed_world (service : string -> option response) : World :=
  mkWorld
    [("data/countries_list_2023-12-31T00-00-00.csv",
      mkFile (Csv [[""; "Area"; "Area Code (M49)"]]) 24 1);
     ("data/countries_list_2024-01-01T00-00-00.csv",
      mkFile (Csv countries_list_csv) 60 2)]
    [] service [] [] "2024-01-02T00-00-00" 3 [].

(** A record whose [languages] is a list of names. *)
Definition languages_as_list : list (string * json) :=
  [("name", JObj [("common", JStr "Afghanistan"); ("nativeName", JObj [])]);
   ("capital", JArr [JStr "Kabul"]);
   ("languages", JArr [JStr "Dari"; JStr "Pashto"])].

(** A record whose [capital] is a number. *)
Definition capital_as_number : list (string * json) :=
  [("name", JObj [("common", JStr "Afghanistan"); ("nativeName", JObj [])]);
   ("capital", JNum 5);
   ("languages", JObj [("prs", JStr "Dari")])].

(** A record whose [capital] is a plain string. *)
Definition capital_as_string : list (string * json) :=
  [("name", JObj [("common", JStr "Afghanistan"); ("nativeName", JObj [])]);
   ("capital", JStr "Kabul");
   ("languages", JObj [("prs", JStr "Dari")])].

End MoreExamples.
Export MoreExamples.

(* ================================================================== *)
(** * Basic facts about labels and masks *)

Module LabelFacts.

Lemma mem_In (x : string) (l : list string) : mem x l = true <-> In x l.
Proof.
  unfold mem. rewrite existsb_exists. split.
  - intros [y [Hin Heq]]. apply String.eqb_eq in Heq. now subst.
  - intros Hin. exists x. split; [assumption | apply String.eqb_refl].
Qed.

Lemma mem_false (x : string) (l : list string) : mem x l = false <-> ~ In x l.
Proof.
  rewrite <- mem_In. destruct (mem x l); intuition congruence.
Qed.

Lemma find_missing_none (labels cols : list string) :
  find (fun l => negb (mem l cols)) labels = None <->
  (forall l, In l labels -> In l cols).
Proof.
  induction labels as [|a rest IH]; simpl.
  - split; [intros _ l [] | reflexivity].
  - destruct (mem a cols) eqn:E; simpl.
    + rewrite IH. apply mem_In in E. split.
      * intros H l [<- | Hl]; auto.
      * intros H l Hl. apply H. now right.
    + split; [discriminate |]. intros H.
      apply mem_false in E. exfalso. apply E, H. now left.
Qed.

Lemma find_missing_some (labels cols : list string) (l : string) :
  find (fun l => negb (mem l cols)) labels = Some l ->
  In l labels /\ ~ In l cols.
Proof.
  intros H. apply find_some in H. destruct H as [Hin Hneg].
  split; [assumption |]. apply mem_false. now apply negb_true_iff.
Qed.


Lemma rename_label_not_key (mapping : list (string * string)) (c : string) :
  mem c (map fst mapping) = false -> rename_label mapping c = c.
Proof.
  unfold rename_label. induction mapping as [|[k v] rest IH]; simpl; [reflexivity |].
  intros H. apply orb_false_iff in H. destruct H as [Hk Hrest].
  rewrite Hk. now apply IH.
Qed.

Lemma rename_label_cases (mapping : list (string * string)) (c : string) :
  rename_label mapping c = c \/ In (rename_label mapping c) (map snd mapping).
Proof.
  unfold rename_label.
  destruct (find (fun kv => String.eqb c (fst kv)) mapping) as [kv|] eqn:E.
  - right. apply find_some in E. apply in_map. tauto.
  - now left.
Qed.

(** A label that the mapping neither reads nor produces is among the
    renamed labels exactly when it is among the original ones. *)
Lemma renamed_In_separate (mapping : list (string * string)) (cols : list string)
  (l : string) :
  mem l (map fst mapping) = false ->
  mem l (map snd mapping) = false ->
  (In l (map (rename_label mapping) cols) <-> In l cols).
Proof.
  intros Hkey Htarget. split.
  - intros H. apply in_map_iff in H. destruct H as [c [Hc Hin]].
    destruct (rename_label_cases mapping c) as [Hsame | Htgt].
    + rewrite Hsame in Hc. now subst.
    + rewrite Hc in Htgt. apply mem_In in Htgt. congruence.
  - intros H. apply in_map_iff. exists l. split; [| assumption].
    now apply rename_label_not_key.
Qed.


Lemma separated_In (mapping : list (string * string)) (dropped : list string)
  (cols : list string) (l : string) :
  separated mapping dropped = true -> In l dropped ->
  (In l (map (rename_label mapping) cols) <-> In l cols).
Proof.
  intros Hsep Hin. unfold separated in Hsep. rewrite forallb_forall in Hsep.
  specialize (Hsep l Hin). apply andb_true_iff in Hsep.
  destruct Hsep as [Hk Ht]. apply negb_true_iff in Hk, Ht.
  now apply renamed_In_separate.
Qed.

Lemma rename_drop_calls_separated (mapping : list (string * string))
  (dropped : list string) :
  In (mapping, dropped) rename_drop_calls -> separated mapping dropped = true.
Proof.
  simpl. intros [H | [H | [H | []]]]; inversion H; subst; reflexivity.
Qed.

End LabelFacts.
Import LabelFacts.

(* ================================================================== *)
(** * The schema mapper *)

Module SchemaMapper.

(** [rename_drop] raises exactly when a dropped label is missing from
    the renamed columns, and then with a [KeyError] for such a label. *)
Lemma rename_drop_raises (mapping : list (string * string)) (dropped : list string)
  (df : DataFrame) :
  (exists e, rename_drop mapping dropped df = Raise e) <->
  (exists l, In l dropped /\ ~ In l (map (rename_label mapping) (columns df))).
Proof.
  unfold rename_drop, drop. simpl.
  destruct (find _ dropped) as [l|] eqn:E.
  - split.
    + intros _. exists l. now apply find_missing_some.
    + intros _. now exists (KeyError l).
  - split.
    + intros [e He]. discriminate.
    + intros [l [Hin Hnot]]. exfalso. apply Hnot.
      rewrite find_missing_none in E. now apply E.
Qed.


(** C4, as stated, fails: ['Item'] is named in the mapping of the
    item-group table and absent from this source, and the mapper returns
    a table all the same. *)
Lemma mapped_column_absent_no_error :
  In "Item" (map fst item_group_mapping) /\
  ~ In "Item" (columns item_group_without_item) /\
  rename_drop item_group_mapping item_group_dropped item_group_without_item =
  Ok {| columns := ["item_group_code"; "item_group"; "item_code"];
        rows := [(0%Z, [VInt 1714; VStr "Cereals"; VInt 15])] |}.
Proof.
  split; [simpl; tauto |]. split; [| reflexivity].
  apply mem_false. reflexivity.
Qed.

(** C4, amended: for the rename-and-drop calls of the source, the mapper
    raises exactly when a label of the drop set is absent from the source
    table, and what it raises is a [KeyError] for such a label; a label
    of the mapping that is absent is skipped and raises nothing. *)
Theorem schema_mapper_raises_iff_dropped_absent
  (mapping : list (string * string)) (dropped : list string) (df : DataFrame) :
  In (mapping, dropped) rename_drop_calls ->
  ((exists e, rename_drop mapping dropped df = Raise e)
   <-> (exists l, In l dropped /\ ~ In l (columns df)))
  /\ (forall e, rename_drop mapping dropped df = Raise e ->
                exists l, e = KeyError l /\ In l dropped /\ ~ In l (columns df)).
Proof.
  intros Hcall. pose proof (rename_drop_calls_separated _ _ Hcall) as Hsep.
  split.
  - rewrite rename_drop_raises. split; intros [l [Hin Hnot]]; exists l;
      (split; [assumption |]); intros Hc; apply Hnot;
      now apply (separated_In mapping dropped (columns df) l Hsep Hin).
  - unfold rename_drop, drop. simpl. intros e.
    destruct (find _ dropped) as [l|] eqn:E; [| discriminate].
    intros He. inversion He; subst. exists l. split; [reflexivity |].
    apply find_missing_some in E. destruct E as [Hin Hnot].
    split; [assumption |]. intros Hc. apply Hnot.
    now apply (separated_In mapping dropped).
Qed.

Lemma schema_mapper_raises_iff_dropped_absent_witness :
  ((exists e, rename_drop item_group_mapping item_group_dropped
                          item_group_without_factor = Raise e)
   <-> (exists l, In l item_group_dropped
                  /\ ~ In l (columns item_group_without_factor)))
  /\ (forall e, rename_drop item_group_mapping item_group_dropped
                            item_group_without_factor = Raise e ->
                exists l, e = KeyError l /\ In l item_group_dropped
                          /\ ~ In l (columns item_group_without_factor)).
Proof.
  apply (schema_mapper_raises_iff_dropped_absent
           item_group_mapping item_group_dropped item_group_without_factor).
  simpl. left. reflexivity.
Defined.

End SchemaMapper.

(* ================================================================== *)
(** * Dimension tables: columns and rows *)

Module Dimensions.

Import SchemaMapper.






(** The example of the claim, on the files: [process_units_data] turns
    that [Units.csv] into a [dim_unit.csv] with the renamed header and
    the same two lines, locally and in the bucket. *)
Lemma process_units_data_example (final_directory : string) (w : World) (f : file) :
  find_file "data/Units.csv" (fs w) = Some f ->
  data f = Csv units_csv ->
  exists w' written,
    process_units_data final_directory w = (Ok tt, w')
    /\ data written = Csv [["unit_name"; "description"];
                           ["ha"; "hectares"];
                           ["tonnes"; "metric tonnes"]]
    /\ find_file (final_directory ++ "/dim_unit.csv") (fs w') = Some written
    /\ find_file "dim_unit.csv" (bucket w') = Some written.
Proof.
  intros Hfile Hdata.
  unfold process_units_data, bind, print, pd_read_csv, df_to_csv, write_file,
    s3_upload_file. simpl.
  rewrite Hfile, Hdata. simpl. rewrite String.eqb_refl. simpl.
  eexists. eexists. split; [reflexivity |]. simpl.
  rewrite String.eqb_refl. repeat split; reflexivity.
Qed.

End Dimensions.

(* ================================================================== *)
(** * Normalization of the fetched records *)

Module Normalization.

Lemma lookup_update_same (k : string) (v : json) (fields : list (string * json)) :
  lookup k (update k v fields) = Some v.
Proof.
  induction fields as [|[k' w] rest IH]; simpl.
  - now rewrite String.eqb_refl.
  - destruct (String.eqb k k') eqn:E; simpl; rewrite E; [reflexivity | exact IH].
Qed.

Lemma lookup_update_other (k k' : string) (v : json) (fields : list (string * json)) :
  String.eqb k k' = false ->
  lookup k (update k' v fields) = lookup k fields.
Proof.
  intros Hne. induction fields as [|[k2 w] rest IH]; simpl.
  - now rewrite Hne.
  - destruct (String.eqb k' k2) eqn:E; simpl.
    + apply String.eqb_eq in E. subst k2. now rewrite Hne.
    + destruct (String.eqb k k2); [reflexivity | exact IH].
Qed.


Lemma all_strings_of_strings (parts : list string) :
  all_strings (map JStr parts) = Ok parts.
Proof.
  induction parts as [|p rest IH]; simpl; [reflexivity | now rewrite IH].
Qed.



(** C3, as stated, fails: a record from which [languages], [capital] or
    [nativeName] is absent makes the normalization raise [KeyError]. *)
Lemma absent_field_raises_key_error :
  normalize_item (fun _ => "")
    (JObj [("name", JObj [("common", JStr "Antarctica");
                          ("nativeName", JObj [])]);
           ("capital", JArr [])])
  = Raise (KeyError "languages")
  /\ normalize_item (fun _ => "")
       (JObj [("name", JObj [("common", JStr "Antarctica");
                             ("nativeName", JObj [])]);
              ("languages", JObj [])])
     = Raise (KeyError "capital")
  /\ normalize_item (fun _ => "")
       (JObj [("name", JObj [("common", JStr "Antarctica")]);
              ("capital", JArr []); ("languages", JObj [])])
     = Raise (KeyError "nativeName").
Proof. repeat split. Qed.

Section WithRepr.

Variable py_repr : json -> string.

(** C3, amended: on a record that has the keys [languages], [capital]
    and [name] with [nativeName], the normalization returns, and every
    one of the three fields whose value is empty is in the result as it
    was in the record. *)
Theorem normalize_item_keeps_empty_fields
  (fields : list (string * json)) (languages capital native_name : json)
  (name : list (string * json)) :
  lookup "languages" fields = Some languages ->
  lookup "capital" fields = Some capital ->
  lookup "name" fields = Some (JObj name) ->
  lookup "nativeName" name = Some native_name ->
  languages_shape languages ->
  capital_shape capital ->
  exists out,
    normalize_item py_repr (JObj fields) = Ok (JObj out)
    /\ (truthy languages = false -> lookup "languages" out = Some languages)
    /\ (truthy capital = false -> lookup "capital" out = Some capital)
    /\ (truthy native_name = false -> lookup "name" out = Some (JObj name)).
Proof.
  intros Hl Hc Hn Hnn Hls Hcs.
  unfold normalize_item. simpl. rewrite Hl. simpl.
  destruct (truthy languages) eqn:Tl;
    [destruct (Hls Tl) as [m ->]; simpl;
     rewrite lookup_update_other by reflexivity | simpl];
    rewrite Hc; simpl;
    (destruct (truthy capital) eqn:Tc;
     [destruct (Hcs Tc) as [parts Hparts];
      destruct (iterate capital) as [vs|e] eqn:Ei; [| discriminate];
      simpl in Hparts |- *; rewrite Hparts; simpl | simpl]);
    rewrite ?lookup_update_other by reflexivity;
    rewrite Hn; simpl; rewrite Hnn; simpl;
    destruct (truthy native_name) eqn:Tn; simpl;
    (eexists; split; [reflexivity |]);
    repeat split; intros; try discriminate; try assumption;
    rewrite ?lookup_update_other by reflexivity; assumption.
Qed.


End WithRepr.

Lemma normalize_item_keeps_empty_fields_witness :
  exists out,
    normalize_item (fun _ => "") (JObj no_languages) = Ok (JObj out)
    /\ (truthy (JObj []) = false -> lookup "languages" out = Some (JObj []))
    /\ (truthy (JArr [JStr "Kingston"]) = false ->
        lookup "capital" out = Some (JArr [JStr "Kingston"]))
    /\ (truthy (JObj []) = false ->
        lookup "name" out
        = Some (JObj [("common", JStr "Norfolk Island"); ("nativeName", JObj [])])).
Proof.
  apply (normalize_item_keeps_empty_fields (fun _ => "") no_languages
           (JObj []) (JArr [JStr "Kingston"]) (JObj [])
           [("common", JStr "Norfolk Island"); ("nativeName", JObj [])]);
    try reflexivity.
  - intros H. simpl in H. discriminate H.
  - intros _. exists ["Kingston"]. reflexivity.
Defined.



End Normalization.

(* ================================================================== *)
(** * The calls to the web service *)

Module Enrichment.

Lemma with_http_log_same (w : World) : with_http_log w (http_log w) = w.
Proof. now destruct w. Qed.

(** The outcome of the loop depends on the world through the service
    only. *)
Lemma fetch_countries_outcome (codes : list string) :
  forall (acc : list json) (w w' : World),
    http w = http w' ->
    fst (fetch_countries codes acc w) = fst (fetch_countries codes acc w').
Proof.
  induction codes as [|c rest IH]; intros acc w w' Hsame; [reflexivity |].
  cbn [fetch_countries]. unfold bind, requests_get. rewrite <- Hsame.
  destruct (http w (country_url c)) as [r|]; [| reflexivity].
  destruct (201 <=? status_code r)%Z.
  - apply IH. exact Hsame.
  - unfold response_json. destruct (body r) as [doc|]; [| reflexivity].
    unfold ret. apply IH. exact Hsame.
Qed.

Lemma fetch_countries_skip (code : string) (r : response) (after : list string) :
  forall (before : list string) (acc : list json) (w : World),
    http w (country_url code) = Some r ->
    (201 <= status_code r)%Z ->
    fst (fetch_countries (before ++ code :: after) acc w)
    = fst (fetch_countries (before ++ after) acc w).
Proof.
  induction before as [|c rest IH]; intros acc w Hr Hstatus.
  - rewrite !app_nil_l. cbn [fetch_countries]. unfold bind at 1, requests_get. rewrite Hr.
    apply Z.leb_le in Hstatus. rewrite Hstatus.
    apply fetch_countries_outcome. reflexivity.
  - rewrite <- !app_comm_cons. cbn [fetch_countries]. unfold bind, requests_get.
    destruct (http w (country_url c)) as [r'|]; [| reflexivity].
    destruct (201 <=? status_code r')%Z.
    + apply IH; assumption.
    + unfold response_json. destruct (body r') as [doc|]; [| reflexivity].
      unfold ret. apply IH; assumption.
Qed.

Lemma fetch_countries_all (codes : list string) :
  forall (acc : list json) (w : World),
    (forall c, In c codes -> answers (http w) c) ->
    fetch_countries codes acc w
    = (Ok (acc ++ flat_map (record_of (http w)) codes),
       with_http_log w (http_log w ++ map country_url codes)).
Proof.
  induction codes as [|c rest IH]; intros acc w Hall.
  - cbn. now rewrite !app_nil_r, with_http_log_same.
  - destruct (Hall c (or_introl eq_refl)) as [r [Hr Hdoc]].
    cbn [fetch_countries flat_map map]. unfold bind at 1, requests_get.
    unfold record_of at 1. rewrite Hr.
    destruct (201 <=? status_code r)%Z eqn:E.
    + rewrite IH by (intros c' Hc'; apply Hall; now right).
      cbn. rewrite <- app_assoc. reflexivity.
    + apply Z.leb_gt in E. destruct (Hdoc E) as [doc Hbody].
      unfold bind, response_json. rewrite Hbody. unfold ret.
      rewrite IH by (intros c' Hc'; apply Hall; now right).
      cbn. rewrite <- !app_assoc. reflexivity.
Qed.

(** C2: when the call for a code of the list answers with a status of
    201 or more, the loop ends as it does on the list without that code:
    the code adds no record and whatever the other codes give is given
    all the same.  When every call of the list returns, the loop returns
    too, having asked for every code of the list in turn, with the
    documents of exactly the answers below 201, in the order of the
    list. *)
Theorem failed_lookup_is_skipped
  (w : World) (before after : list string) (code : string) (r : response) :
  http w (country_url code) = Some r ->
  (201 <= status_code r)%Z ->
  (forall acc,
      fst (fetch_countries (before ++ code :: after) acc w)
      = fst (fetch_countries (before ++ after) acc w))
  /\ record_of (http w) code = []
  /\ ((forall c, In c (before ++ after) -> answers (http w) c) ->
      fetch_countries (before ++ code :: after) [] w
      = (Ok (flat_map (record_of (http w)) before
             ++ flat_map (record_of (http w)) after),
         with_http_log w
           (http_log w ++ map country_url (before ++ code :: after)))).
Proof.
  intros Hr Hstatus.
  assert (Hnone : record_of (http w) code = []).
  { unfold record_of. rewrite Hr. apply Z.leb_le in Hstatus. now rewrite Hstatus. }
  split; [| split].
  - intros acc. now apply (fetch_countries_skip code r).
  - exact Hnone.
  - intros Hall. rewrite fetch_countries_all.
    + rewrite flat_map_app. cbn [flat_map]. rewrite Hnone. reflexivity.
    + intros c Hc. apply in_app_or in Hc. destruct Hc as [Hc | [<- | Hc]].
      * apply Hall, in_or_app. now left.
      * exists r. split; [assumption | lia].
      * apply Hall, in_or_app. now right.
Qed.

Lemma failed_lookup_is_skipped_witness :
  (forall acc,
      fst (fetch_countries (["004"] ++ "999" :: ["008"]) acc example_world)
      = fst (fetch_countries (["004"] ++ ["008"]) acc example_world))
  /\ record_of (http example_world) "999" = []
  /\ ((forall c, In c (["004"] ++ ["008"]) -> answers (http example_world) c) ->
      fetch_countries (["004"] ++ "999" :: ["008"]) [] example_world
      = (Ok (flat_map (record_of (http example_world)) ["004"]
             ++ flat_map (record_of (http example_world)) ["008"]),
         with_http_log example_world
           (http_log example_world
            ++ map country_url (["004"] ++ "999" :: ["008"])))).
Proof.
  apply (failed_lookup_is_skipped example_world ["004"] ["008"] "999"
           (mkResponse 404 (Some (JObj [("status", JNum 404)])))).
  - reflexivity.
  - simpl. lia.
Defined.

(** The example of the specification, evaluated. *)
Lemma fetch_countries_example :
  fst (fetch_countries ["004"; "008"; "999"] [] example_world)
  = Ok [JObj [("ccn3", JStr "004")]; JObj [("ccn3", JStr "008")]].
Proof. reflexivity. Qed.

End Enrichment.

(* ================================================================== *)
(** * The checks on the written files *)

Module QualityChecks.

Local Open Scope prog_scope.

(** One block, when the file is there: three lines, one per check. *)
Lemma check_artifact_present (name : string) (w : World) (f : file) :
  find_file ("output/" ++ name) (fs w) = Some f ->
  check_artifact name w
  = (Ok tt,
     with_stdout w
       (stdout w ++ [line_exists true; line_non_empty (st_size f);
                     line_uploaded (listed w name)])).
Proof.
  intros Hf.
  unfold check_artifact. set (path := ("output/" ++ name)%string) in *.
  unfold bind, os_path_isfile, os_stat_size, s3_has_prefix, print.
  rewrite Hf. cbn [fs with_stdout]. rewrite Hf.
  unfold line_non_empty, line_uploaded, listed.
  destruct (negb (st_size f =? 0)%N); cbn [bucket with_stdout];
    destruct (existsb _ (bucket w)); cbn [stdout with_stdout line_exists];
    rewrite <- !app_assoc; reflexivity.
Qed.

(** One block, when the file is missing: the first line is printed and
    [os.stat] raises. *)
Lemma check_artifact_missing (name : string) (w : World) :
  find_file ("output/" ++ name) (fs w) = None ->
  check_artifact name w
  = (Raise (FileNotFoundError ("output/" ++ name)),
     with_stdout w (stdout w ++ [line_exists false])).
Proof.
  intros Hf.
  unfold check_artifact. set (path := ("output/" ++ name)%string) in *.
  unfold bind, os_path_isfile, os_stat_size, print.
  rewrite Hf. cbn [fs with_stdout]. rewrite Hf. reflexivity.
Qed.

Lemma check_artifact_cases (name : string) (w : World) :
  (exists w', check_artifact name w = (Ok tt, w')
              /\ fs w' = fs w
              /\ find_file ("output/" ++ name) (fs w) <> None)
  \/ (exists w', check_artifact name w
                 = (Raise (FileNotFoundError ("output/" ++ name)), w')
                 /\ find_file ("output/" ++ name) (fs w) = None).
Proof.
  destruct (find_file ("output/" ++ name) (fs w)) as [f|] eqn:E.
  - left. eexists. rewrite (check_artifact_present name w f E).
    split; [reflexivity |]. split; [reflexivity | congruence].
  - right. eexists. rewrite (check_artifact_missing name w E).
    split; reflexivity.
Qed.

(** C1 does not hold of the code: whenever one of the seven files is
    missing, [quality_checks] ends with the [FileNotFoundError] that
    [os.stat] raises for the first missing one, instead of reporting it
    and going on. *)
Theorem quality_checks_raises_on_missing_file (w : World) (name : string) :
  In name expected_artifacts ->
  find_file ("output/" ++ name) (fs w) = None ->
  exists missing w',
    quality_checks w = (Raise (FileNotFoundError ("output/" ++ missing)), w')
    /\ In missing expected_artifacts
    /\ find_file ("output/" ++ missing) (fs w) = None.
Proof.
  intros Hin Hmissing.
  unfold quality_checks.
  unfold bind at 1. unfold print at 1.
  set (w0 := with_stdout w _).
  assert (H0 : fs w0 = fs w) by reflexivity.
  clearbody w0.
  repeat
    match goal with
    | |- context [bind (check_artifact ?n) ?k ?wi] =>
        unfold bind at 1;
        let w' := fresh "w" in
        let Hrun := fresh "Hrun" in
        let Hfs := fresh "Hfs" in
        let Hsome := fresh "Hsome" in
        let Hnone := fresh "Hnone" in
        destruct (check_artifact_cases n wi) as
          [[w' [Hrun [Hfs Hsome]]] | [w' [Hrun Hnone]]];
        rewrite Hrun;
        [ rewrite H0 in Hsome; rewrite H0 in Hfs; clear Hrun;
          rename Hfs into H0'; clear H0; rename H0' into H0
        | exists n, w'; split; [reflexivity |];
          split; [simpl; tauto | now rewrite <- H0] ]
    end.
  exfalso.
  simpl in Hin.
  repeat (destruct Hin as [<- | Hin]; [contradiction |]).
  exact Hin.
Qed.

Lemma quality_checks_raises_on_missing_file_witness :
  exists missing w',
    quality_checks world_without_dim_flag
    = (Raise (FileNotFoundError ("output/" ++ missing)), w')
    /\ In missing expected_artifacts
    /\ find_file ("output/" ++ missing) (fs world_without_dim_flag) = None.
Proof.
  apply (quality_checks_raises_on_missing_file world_without_dim_flag "dim_flag.csv").
  - simpl. tauto.
  - reflexivity.
Defined.

(** The run on that world: the first two files are reported, the third
    is reported as not saved, then the exception ends the function; the
    four files after it are never looked at. *)
Lemma quality_checks_without_dim_flag :
  quality_checks world_without_dim_flag
  = (Raise (FileNotFoundError "output/dim_flag.csv"),
     with_stdout world_without_dim_flag
       ["********* STEP 9 (quality checks) START ************";
        "The file is saved in the correct local folder";
        "The file is not empty";
        "Object has fully uploaded to S3";
        "The file is saved in the correct local folder";
        "The file is not empty";
        "Object has fully uploaded to S3";
        "The file not in saved, or in the wrong folder!"]).
Proof. reflexivity. Qed.

(** When the seven files are there, nothing is raised. *)
Lemma quality_checks_all_present (w : World) :
  (forall name, In name expected_artifacts ->
                find_file ("output/" ++ name) (fs w) <> None) ->
  exists w', quality_checks w = (Ok tt, w') /\ fs w' = fs w.
Proof.
  intros Hall.
  unfold quality_checks.
  unfold bind at 1. unfold print at 1.
  set (w0 := with_stdout w _).
  assert (H0 : fs w0 = fs w) by reflexivity.
  clearbody w0.
  repeat
    match goal with
    | |- context [bind (check_artifact ?n) ?k ?wi] =>
        unfold bind at 1;
        let w' := fresh "w" in
        let Hrun := fresh "Hrun" in
        let Hfs := fresh "Hfs" in
        let Hsome := fresh "Hsome" in
        let Hnone := fresh "Hnone" in
        destruct (check_artifact_cases n wi) as
          [[w' [Hrun [Hfs Hsome]]] | [w' [Hrun Hnone]]];
        rewrite Hrun;
        [ rewrite H0 in Hfs; clear Hrun Hsome;
          rename Hfs into H0'; clear H0; rename H0' into H0
        | exfalso; rewrite H0 in Hnone; revert Hnone; apply Hall;
          simpl; tauto ]
    end.
  eexists. split; [reflexivity |]. exact H0.
Qed.

End QualityChecks.

(* ================================================================== *)
(** * The country dimension without a list of countries *)

Module CountryList.

Section WithLibrary.

Variable py_repr : json -> string.
Variable json_dumps : list json -> string.
Variable json_normalize : list json -> result DataFrame.

(** C10: when [glob] finds no [countries_list_*] file in [data],
    [process_countries_data] ends with the [ValueError] that [max]
    raises on an empty list, after its first line of output and before
    any call to the service, any write and any upload. *)
Theorem no_countries_list_raises (final_directory : string) (w : World) :
  fst (glob_prefix "data/countries_list_" w) = Ok [] ->
  exists w',
    process_countries_data py_repr json_dumps json_normalize final_directory w
    = (Raise ValueError, w')
    /\ http_log w' = http_log w
    /\ fs w' = fs w
    /\ bucket w' = bucket w
    /\ stdout w'
       = stdout w ++ ["********* STEP 8 (API countries) START ************"].
Proof.
  intros Hglob.
  assert (Hrun : forall lines,
             glob_prefix "data/countries_list_" (with_stdout w lines)
             = (Ok [], with_stdout w lines)).
  { intros lines. unfold glob_prefix in *. f_equal. exact Hglob. }
  unfold process_countries_data.
  unfold bind at 1. unfold print at 1.
  unfold bind at 1. rewrite Hrun.
  unfold bind at 1. unfold max_by_ctime.
  eexists. split; [reflexivity |]. repeat split.
Qed.

End WithLibrary.

Lemma no_countries_list_raises_witness :
  exists w',
    process_countries_data (fun _ => "") (fun _ => "[]")
      (fun _ => Ok (mkDataFrame [] [])) "output"
      fact_world
    = (Raise ValueError, w')
    /\ http_log w' = http_log fact_world
    /\ fs w' = fs fact_world
    /\ bucket w' = bucket fact_world
    /\ stdout w'
       = stdout fact_world
         ++ ["********* STEP 8 (API countries) START ************"].
Proof.
  apply (no_countries_list_raises (fun _ => "") (fun _ => "[]")
           (fun _ => Ok (mkDataFrame [] [])) "output"
           fact_world).
  reflexivity.
Defined.

End CountryList.

(* ================================================================== *)
(** * The list of countries of the fact table *)

Module Countries.

Lemma value_eqb_eq (a b : value) : value_eqb a b = true <-> a = b.
Proof.
  destruct a, b; simpl; split; intros H; try discriminate; try reflexivity.
  - apply Z.eqb_eq in H. now subst.
  - inversion H. apply Z.eqb_refl.
  - apply String.eqb_eq in H. now subst.
  - inversion H. apply String.eqb_refl.
Qed.

Lemma cells_eqb_eq (r s : list value) : cells_eqb r s = true <-> r = s.
Proof.
  revert s. induction r as [|a r IH]; intros [|b s]; simpl;
    split; intros H; try discriminate; try reflexivity.
  - apply andb_true_iff in H. destruct H as [Hab Hrs].
    apply value_eqb_eq in Hab. apply IH in Hrs. now subst.
  - inversion H; subst. apply andb_true_iff. split.
    + now apply value_eqb_eq.
    + now apply IH.
Qed.

Lemma seen_In (cells : list value) (seen : list (list value)) :
  existsb (cells_eqb cells) seen = true <-> In cells seen.
Proof.
  rewrite existsb_exists. split.
  - intros [s [Hin Heq]]. apply cells_eqb_eq in Heq. now subst.
  - intros Hin. exists cells. split; [assumption | now apply cells_eqb_eq].
Qed.

Lemma seen_not_In (cells : list value) (seen : list (list value)) :
  existsb (cells_eqb cells) seen = false <-> ~ In cells seen.
Proof.
  rewrite <- seen_In. destruct (existsb _ seen); intuition congruence.
Qed.

(** The cells that stay are those of the rows that were not seen
    before, each once. *)
Lemma drop_dups_In (rs : list row) :
  forall (seen : list (list value)) (cells : list value),
    In cells (map snd (drop_dups_from seen rs))
    <-> In cells (map snd rs) /\ ~ In cells seen.
Proof.
  induction rs as [|r rest IH]; intros seen cells; simpl.
  - tauto.
  - destruct (existsb (cells_eqb (snd r)) seen) eqn:E.
    + apply seen_In in E. rewrite IH. split.
      * intros [H1 H2]. tauto.
      * intros [[H1 | H1] H2]; [subst; contradiction | tauto].
    + apply seen_not_In in E. simpl. rewrite IH. simpl. split.
      * intros [H | [H1 H2]]; [subst; tauto | tauto].
      * intros [[H1 | H1] H2]; [tauto |].
        destruct (cells_eqb (snd r) cells) eqn:Heq;
          [apply cells_eqb_eq in Heq
          | assert (Hne : snd r <> cells)
              by (intros Hc; apply cells_eqb_eq in Hc; congruence)].
        -- now left.
        -- right. split; [assumption |]. intros [H | H]; [contradiction | tauto].
Qed.

Lemma drop_dups_NoDup (rs : list row) :
  forall seen : list (list value), NoDup (map snd (drop_dups_from seen rs)).
Proof.
  induction rs as [|r rest IH]; intros seen; simpl; [constructor |].
  destruct (existsb (cells_eqb (snd r)) seen); [apply IH |].
  simpl. constructor; [| apply IH].
  rewrite drop_dups_In. intros [_ H]. apply H. now left.
Qed.

Lemma map_combine_map {A B C : Type} (f : A * B -> C) (g : A -> B) (l : list A) :
  map f (combine l (map g l)) = map (fun x => f (x, g x)) l.
Proof.
  induction l as [|x rest IH]; simpl; [reflexivity | now rewrite IH].
Qed.

Lemma extract_countries_closed (ddf : DaskFrame) :
  extract_countries ddf
  = bind_result (positions country_labels (dcolumns ddf)) (fun ps =>
      let rs := distinct_rows ps ddf in
      if str_accessor_ok (map (fun r : row => nth 1 (snd r) VNaN) rs) then
        Ok {| columns := country_labels;
              rows := map (fun r : row => (fst r, strip_code (snd r))) rs |}
      else Raise AttributeError).
Proof.
  unfold extract_countries, dd_getitem_columns, country_labels.
  destruct (positions _ (dcolumns ddf)) as [ps|e]; [| reflexivity].
  cbn [bind_result]. unfold dd_drop_duplicates_compute, distinct_rows.
  cbn [dcolumns partitions].
  set (rs := drop_dups_from [] (concat _)).
  unfold getitem_column. cbn [columns rows index_of String.eqb Ascii.eqb
                               Bool.eqb option_map].
  cbn [bind_result]. unfold str_lstrip.
  destruct (str_accessor_ok _); [| reflexivity].
  cbn [bind_result]. unfold setitem_column.
  cbn [columns rows index_of String.eqb Ascii.eqb Bool.eqb option_map].
  rewrite map_map.
  rewrite (map_combine_map (setitem_row (Some 1%nat))).
  do 2 f_equal. apply map_ext. intros [label cells]. reflexivity.
Qed.

Lemma In_concat_map_snd (parts : list (list row)) (cells : list value) :
  In cells (map snd (concat parts))
  <-> exists part, In part parts /\ In cells (map snd part).
Proof.
  induction parts as [|p rest IH]; simpl.
  - split; [intros [] | intros [part [[] _]]].
  - rewrite map_app, in_app_iff, IH. split.
    + intros [H | [part [H1 H2]]]; [exists p; tauto | exists part; tauto].
    + intros [part [[<- | H1] H2]]; [tauto | right; exists part; tauto].
Qed.

(** The cells of the distinct rows are the selected cells of the rows
    of the source, whatever the blocks. *)
Lemma distinct_rows_In (ps : list nat) (ddf : DaskFrame) (cells : list value) :
  In cells (map snd (distinct_rows ps ddf))
  <-> In cells (map (take ps) (map snd (concat (partitions ddf)))).
Proof.
  unfold distinct_rows. rewrite drop_dups_In.
  rewrite In_concat_map_snd.
  split.
  - intros [[part [Hpart Hin]] _].
    apply in_map_iff in Hpart. destruct Hpart as [part0 [<- Hpart0]].
    apply drop_dups_In in Hin. destruct Hin as [Hin _].
    apply in_map_iff in Hpart0. destruct Hpart0 as [src [<- Hsrc]].
    rewrite map_map in Hin. simpl in Hin.
    apply in_map_iff in Hin. destruct Hin as [r [<- Hr]].
    apply in_map, in_map_iff. exists r. split; [reflexivity |].
    apply in_concat. exists src. tauto.
  - intros Hin. split; [| intros []].
    apply in_map_iff in Hin. destruct Hin as [c [<- Hc]].
    apply in_map_iff in Hc. destruct Hc as [r [<- Hr]].
    apply in_concat in Hr. destruct Hr as [src [Hsrc Hr]].
    exists (drop_dups_from [] (map (fun r0 : row => (fst r0, take ps (snd r0))) src)).
    split.
    + apply in_map, in_map. exact Hsrc.
    + apply drop_dups_In. split; [| intros []].
      rewrite map_map. simpl. apply in_map_iff. exists r. tauto.
Qed.

Lemma distinct_rows_NoDup (ps : list nat) (ddf : DaskFrame) :
  NoDup (map snd (distinct_rows ps ddf)).
Proof. apply drop_dups_NoDup. Qed.

Lemma distinct_rows_Permutation (ps : list nat) (ddf ddf' : DaskFrame) :
  Permutation (map snd (concat (partitions ddf)))
              (map snd (concat (partitions ddf'))) ->
  Permutation (map snd (distinct_rows ps ddf)) (map snd (distinct_rows ps ddf')).
Proof.
  intros Hperm. apply NoDup_Permutation; try apply distinct_rows_NoDup.
  intros cells. rewrite !distinct_rows_In.
  split; apply Permutation_in; apply Permutation_map;
    [exact Hperm | symmetry; exact Hperm].
Qed.

Lemma str_accessor_ok_Permutation (l l' : list value) :
  Permutation l l' -> str_accessor_ok l = str_accessor_ok l'.
Proof.
  intros Hperm.
  assert (Hex : existsb is_text l = existsb is_text l').
  { destruct (existsb is_text l) eqn:E; symmetry.
    - apply existsb_exists in E. destruct E as [x [Hx Ht]].
      apply existsb_exists. exists x. split; [| assumption].
      now apply (Permutation_in x Hperm).
    - destruct (existsb is_text l') eqn:E'; [| reflexivity].
      apply existsb_exists in E'. destruct E' as [x [Hx Ht]].
      assert (existsb is_text l = true).
      { apply existsb_exists. exists x. split; [| assumption].
        apply (Permutation_in x (Permutation_sym Hperm) Hx). }
      congruence. }
  destruct l as [|a l]; destruct l' as [|a' l'].
  - reflexivity.
  - apply Permutation_nil in Hperm. discriminate.
  - symmetry in Hperm. apply Permutation_nil in Hperm. discriminate.
  - exact Hex.
Qed.

(** The outcome of the extraction on two sources with the same columns
    and the same rows in any order. *)
Lemma extract_countries_outcome (ddf ddf' : DaskFrame) :
  dcolumns ddf = dcolumns ddf' ->
  Permutation (map snd (concat (partitions ddf)))
              (map snd (concat (partitions ddf'))) ->
  match extract_countries ddf, extract_countries ddf' with
  | Ok countries, Ok countries' =>
      Permutation (values_of countries) (values_of countries')
  | Raise e, Raise e' => e = e'
  | _, _ => False
  end.
Proof.
  intros Hcols Hperm.
  rewrite !extract_countries_closed. rewrite <- Hcols.
  destruct (positions country_labels (dcolumns ddf)) as [ps|e]; [| reflexivity].
  cbn [bind_result].
  pose proof (distinct_rows_Permutation ps ddf ddf' Hperm) as Hdistinct.
  assert (Hcodes :
            Permutation (map (fun r : row => nth 1 (snd r) VNaN) (distinct_rows ps ddf))
                        (map (fun r : row => nth 1 (snd r) VNaN) (distinct_rows ps ddf'))).
  { assert (E : forall l : list row,
               map (fun r : row => nth 1 (snd r) VNaN) l
               = map (fun cells => nth 1 cells VNaN) (map snd l))
      by (intros l; now rewrite map_map).
    rewrite !E. now apply Permutation_map. }
  rewrite <- (str_accessor_ok_Permutation _ _ Hcodes).
  destruct (str_accessor_ok _); [| reflexivity].
  unfold values_of. cbn [columns rows]. rewrite !map_map. cbn [snd].
  assert (Estrip : forall l : list row,
             map (fun r : row => strip_code (snd r)) l
             = map strip_code (map snd l))
    by (intros l; now rewrite map_map).
  rewrite !Estrip. now apply Permutation_map.
Qed.

(** What a returned list of countries holds. *)
Lemma extract_countries_cells (ddf : DaskFrame) (countries : DataFrame) :
  extract_countries ddf = Ok countries ->
  columns countries = country_labels
  /\ exists area code,
       index_of "Area" (dcolumns ddf) = Some area
       /\ index_of "Area Code (M49)" (dcolumns ddf) = Some code
       /\ forall cells,
            In cells (values_of countries)
            <-> exists source,
                  In source (map snd (concat (partitions ddf)))
                  /\ cells = [nth area source VNaN;
                              lstrip_cell "'" (nth code source VNaN)].
Proof.
  rewrite extract_countries_closed. unfold country_labels. cbn [positions].
  destruct (index_of "Area" (dcolumns ddf)) as [area|]; [| discriminate].
  destruct (index_of "Area Code (M49)" (dcolumns ddf)) as [code|]; [| discriminate].
  cbn [bind_result]. set (ps := [area; code]).
  destruct (str_accessor_ok _); [| discriminate].
  intros H. injection H as <-. split; [reflexivity |].
  exists area, code. split; [reflexivity |]. split; [reflexivity |].
  intros cells. unfold values_of. cbn [rows]. rewrite map_map. cbn [snd].
  assert (Estrip : forall l : list row,
             map (fun r : row => strip_code (snd r)) l
             = map strip_code (map snd l))
    by (intros l; now rewrite map_map).
  rewrite Estrip, in_map_iff. split.
  - intros [c [<- Hc]]. apply distinct_rows_In in Hc.
    apply in_map_iff in Hc. destruct Hc as [source [<- Hsource]].
    exists source. split; [assumption | reflexivity].
  - intros [source [Hsource ->]].
    exists (take ps source). split; [reflexivity |].
    apply distinct_rows_In. now apply in_map.
Qed.




(** The two lists of that example. *)
Lemma extract_countries_example :
  extract_countries (dd_read_csv [] world_data_csv)
  = Ok {| columns := ["Area"; "Area Code (M49)"];
          rows := [(0%Z, [VStr "Afghanistan"; VStr "004"]);
                   (2%Z, [VStr "Albania"; VStr "008"])] |}
  /\ extract_countries (dd_read_csv [1%nat] world_data_csv_shuffled)
     = Ok {| columns := ["Area"; "Area Code (M49)"];
             rows := [(0%Z, [VStr "Afghanistan"; VStr "004"]);
                      (1%Z, [VStr "Albania"; VStr "008"])] |}.
Proof. split; reflexivity. Qed.

End Countries.

(* ================================================================== *)
(** * The fact table *)

Module FactTable.

Lemma concat_split_blocks {A : Type} (sizes : list nat) :
  forall l : list A, concat (split_blocks sizes l) = l.
Proof.
  induction sizes as [|n rest IH]; intros l; simpl.
  - apply app_nil_r.
  - rewrite IH. apply firstn_skipn.
Qed.

Lemma map_snd_range_index {A : Type} (l : list A) :
  forall start, map snd (range_index start l) = l.
Proof.
  induction l as [|x rest IH]; intros start; simpl; [reflexivity |].
  now rewrite IH.
Qed.

Lemma map_snd_relabel (rs : list row) : map snd (relabel rs) = map snd rs.
Proof. unfold relabel. apply map_snd_range_index. Qed.

Lemma map_snd_concat_relabel (parts : list (list row)) :
  map snd (concat (map relabel parts)) = map snd (concat parts).
Proof.
  induction parts as [|p rest IH]; [reflexivity |].
  cbn [concat map]. rewrite !map_app.
  f_equal; [apply map_snd_relabel | exact IH].
Qed.

(** The cells read do not depend on the blocks. *)
Lemma data_of_dd_read_csv (sizes : list nat) (g : grid) :
  data_of (dd_read_csv sizes g) = map snd (rows (read_csv g)).
Proof.
  unfold data_of, dd_read_csv. cbn [partitions].
  now rewrite map_snd_concat_relabel, concat_split_blocks.
Qed.

Lemma map_nth_concat_map (f : list value -> list value) (p : nat)
  (parts : list (list row)) :
  map (fun r : row => nth p (snd r) VNaN)
      (concat (map (map (fun r : row => (fst r, f (snd r)))) parts))
  = map (fun cells => nth p (f cells) VNaN) (map snd (concat parts)).
Proof.
  induction parts as [|part rest IH]; [reflexivity |].
  cbn [concat map]. rewrite !map_app.
  f_equal; [rewrite !map_map; reflexivity | exact IH].
Qed.

Lemma transform_world_data_closed (ddf : DaskFrame) :
  transform_world_data ddf
  = match find (fun l => negb (mem l (map (rename_label world_data_mapping)
                                         (dcolumns ddf))))
               world_data_dropped with
    | Some l => Raise (KeyError l)
    | None =>
        match index_of "area_code_m49" (fact_columns (dcolumns ddf)) with
        | None => Raise (KeyError "area_code_m49")
        | Some p =>
            if str_accessor_ok
                 (map (fun cells =>
                         nth p (select (keep_mask world_data_dropped
                                          (map (rename_label world_data_mapping)
                                               (dcolumns ddf))) cells) VNaN)
                      (data_of ddf))
            then
              Ok {| dcolumns := fact_columns (dcolumns ddf);
                    partitions :=
                      map (map (fun r : row =>
                                  (fst r, fact_cells (dcolumns ddf) p (snd r))))
                          (partitions ddf) |}
            else Raise AttributeError
        end
    end.
Proof.
  unfold transform_world_data, dd_drop, dd_rename. cbn [dcolumns partitions].
  destruct (find _ world_data_dropped) as [l|]; [reflexivity |].
  cbn [bind_result]. unfold dd_lstrip_column. cbn [dcolumns partitions].
  fold (fact_columns (dcolumns ddf)).
  destruct (index_of "area_code_m49" (fact_columns (dcolumns ddf))) as [p|];
    [| reflexivity].
  rewrite (map_nth_concat_map
             (select (keep_mask world_data_dropped
                        (map (rename_label world_data_mapping) (dcolumns ddf))))).
  fold (data_of ddf).
  destruct (str_accessor_ok _); [| reflexivity].
  f_equal. f_equal. rewrite map_map. apply map_ext. intros part.
  rewrite map_map. apply map_ext. intros [label cells]. reflexivity.
Qed.

Lemma appended_blocks_lines (ddf : DaskFrame) (others : list (list row)) :
  concat (map (fun rs => to_csv true false (partition_frame ddf rs)) others)
  = map (to_csv_line true) (concat others).
Proof.
  induction others as [|o rest IH]; [reflexivity |].
  cbn [map concat]. rewrite map_app, IH. reflexivity.
Qed.

(** The file that is written: one header line, then one line per row,
    block after block. *)
Lemma dd_to_csv_single_file_lines (ddf : DaskFrame) :
  partitions ddf <> [] ->
  dd_to_csv_single_file ddf
  = ("" :: dcolumns ddf)
      :: map (to_csv_line true) (concat (partitions ddf)).
Proof.
  unfold dd_to_csv_single_file. destruct (partitions ddf) as [|first others].
  - congruence.
  - intros _. rewrite appended_blocks_lines.
    cbn [concat]. rewrite map_app. reflexivity.
Qed.

Lemma skip_index_lines (rs : list row) :
  map (skipn 1) (map (to_csv_line true) rs) = map (map render) (map snd rs).
Proof.
  rewrite !map_map. apply map_ext. intros [label cells]. reflexivity.
Qed.

(** The outcome of the transform, and the written file without its
    leading field, depend on the columns and the cells only. *)
Lemma fact_file_depends_on_cells (ddf ddf' : DaskFrame) :
  dcolumns ddf = dcolumns ddf' ->
  data_of ddf = data_of ddf' ->
  partitions ddf <> [] ->
  partitions ddf' <> [] ->
  match transform_world_data ddf, transform_world_data ddf' with
  | Ok out, Ok out' =>
      map (skipn 1) (dd_to_csv_single_file out)
      = map (skipn 1) (dd_to_csv_single_file out')
  | Raise e, Raise e' => e = e'
  | _, _ => False
  end.
Proof.
  intros Hcols Hdata Hparts Hparts'.
  rewrite !transform_world_data_closed. rewrite <- Hcols, <- Hdata.
  destruct (find _ world_data_dropped); [reflexivity |].
  destruct (index_of _ _) as [p|]; [| reflexivity].
  destruct (str_accessor_ok _); [| reflexivity].
  rewrite !dd_to_csv_single_file_lines
    by (cbn [partitions]; destruct (partitions ddf), (partitions ddf');
        try congruence; discriminate).
  cbn [map dcolumns partitions]. f_equal.
  rewrite !skip_index_lines. f_equal.
  assert (E : forall d : DaskFrame,
             map snd (concat (map (map (fun r : row =>
                                          (fst r, fact_cells (dcolumns ddf) p (snd r))))
                                  (partitions d)))
             = map (fact_cells (dcolumns ddf) p) (data_of d)).
  { intros d. unfold data_of.
    induction (partitions d) as [|part rest IH]; [reflexivity |].
    cbn [concat map]. rewrite !map_app.
    f_equal; [rewrite !map_map; reflexivity | exact IH]. }
  rewrite !E. now rewrite Hdata.
Qed.

(** The run of [process_world_file_data] on a world that has the
    source file. *)
Lemma process_world_file_data_run (final_directory : string) (w : World)
  (f : file) (g : grid) :
  find_file "data/WorldData.csv" (fs w) = Some f ->
  data f = Csv g ->
  process_world_file_data final_directory w
  = let ddf := dd_read_csv (dask_blocks w) g in
    let w0 := with_stdout w (stdout w ++ [world_start_line]) in
    match extract_countries ddf with
    | Raise e => (Raise e, w0)
    | Ok countries =>
        let w1 :=
          with_fs w0 ((countries_path w, csv_file (to_csv true true countries) w)
                        :: remove_file (countries_path w) (fs w)) in
        match transform_world_data ddf with
        | Raise e => (Raise e, w1)
        | Ok world_data_final =>
            let ff := csv_file (dd_to_csv_single_file world_data_final) w in
            (Ok tt,
             mkWorld
               ((fact_path final_directory, ff)
                  :: remove_file (fact_path final_directory) (fs w1))
               (("fact_world_data.csv", ff)
                  :: remove_file "fact_world_data.csv" (bucket w))
               (http w) (http_log w)
               (stdout w ++ [world_start_line; world_finish_line])
               (now w) (clock w) (dask_blocks w))
        end
    end.
Proof.
  intros Hfile Hdata.
  unfold process_world_file_data.
  fold world_start_line world_finish_line.
  fold (fact_path final_directory).
  unfold bind at 1. unfold print at 1.
  unfold bind at 1. unfold dd_read. cbn [fs with_stdout dask_blocks].
  rewrite Hfile, Hdata.
  unfold bind at 1. unfold lift at 1. cbv zeta.
  destruct (extract_countries _) as [countries|e]; [| reflexivity].
  unfold bind at 1. unfold datetime_now. cbn [now with_stdout].
  fold (countries_path w).
  unfold bind at 1. unfold df_to_csv, write_file.
  cbn [fs with_stdout clock].
  unfold bind at 1. unfold lift at 1.
  destruct (transform_world_data _) as [final|e]; [| reflexivity].
  unfold bind at 1. unfold ddf_to_csv_single_file, write_file.
  cbn [fs with_fs with_stdout clock bucket http http_log stdout now dask_blocks].
  unfold bind at 1. unfold s3_upload_file.
  cbn [fs with_fs with_stdout clock bucket http http_log stdout now dask_blocks
       find_file].
  rewrite String.eqb_refl.
  unfold print.
  cbn [fs with_fs with_stdout with_bucket clock bucket http http_log stdout now
       dask_blocks].
  unfold csv_file. rewrite <- app_assoc. reflexivity.
Qed.

End FactTable.

(* ================================================================== *)
(** * The fact file and the blocks *)

Module FactFile.

Import Countries FactTable.

Lemma In_remove_file (p q : string) (l : list (string * file)) :
  In p (map fst (remove_file q l)) <-> In p (map fst l) /\ p <> q.
Proof.
  unfold remove_file. induction l as [|[k f] rest IH]; simpl.
  - tauto.
  - destruct (String.eqb q k) eqn:E; simpl.
    + apply String.eqb_eq in E. subst k. rewrite IH. split.
      * tauto.
      * intros [[H | H] Hne]; [congruence | tauto].
    + apply String.eqb_neq in E. rewrite IH. split.
      * intros [H | [H1 H2]]; [subst; split; [tauto | congruence] | tauto].
      * tauto.
Qed.

Lemma map_fst_remove_file (q : string) (l : list (string * file)) :
  map fst (remove_file q l) = filter (fun p => negb (String.eqb q p)) (map fst l).
Proof.
  unfold remove_file. induction l as [|[k f] rest IH]; simpl; [reflexivity |].
  destruct (String.eqb q k); simpl; now rewrite IH.
Qed.

Lemma length_concat_map_rows (f : row -> row) (parts : list (list row)) :
  length (concat (map (map f) parts)) = length (concat parts).
Proof.
  induction parts as [|part rest IH]; [reflexivity |].
  cbn [concat map]. rewrite !length_app, length_map. f_equal. exact IH.
Qed.

(** The outcome of the extraction does not depend on the blocks. *)
Lemma extract_countries_blocks (sizes sizes' : list nat) (g : grid) :
  match extract_countries (dd_read_csv sizes g),
        extract_countries (dd_read_csv sizes' g) with
  | Ok _, Ok _ => True
  | Raise e, Raise e' => e = e'
  | _, _ => False
  end.
Proof.
  pose proof (extract_countries_outcome
                (dd_read_csv sizes g) (dd_read_csv sizes' g) eq_refl) as H.
  fold (data_of (dd_read_csv sizes g)) in H.
  fold (data_of (dd_read_csv sizes' g)) in H.
  rewrite !data_of_dd_read_csv in H. specialize (H (Permutation_refl _)).
  destruct (extract_countries (dd_read_csv sizes g)),
    (extract_countries (dd_read_csv sizes' g)); tauto.
Qed.

Lemma transform_world_data_blocks (sizes sizes' : list nat) (g : grid) :
  match transform_world_data (dd_read_csv sizes g),
        transform_world_data (dd_read_csv sizes' g) with
  | Ok out, Ok out' =>
      map (skipn 1) (dd_to_csv_single_file out)
      = map (skipn 1) (dd_to_csv_single_file out')
  | Raise e, Raise e' => e = e'
  | _, _ => False
  end.
Proof.
  apply fact_file_depends_on_cells.
  - reflexivity.
  - now rewrite !data_of_dd_read_csv.
  - unfold dd_read_csv. cbn [partitions].
    destruct sizes; discriminate.
  - unfold dd_read_csv. cbn [partitions].
    destruct sizes'; discriminate.
Qed.

(** C6, amended: on a world that has the source file, the outcome of
    [process_world_file_data] is the same for every way dask cuts the
    file into blocks.  When it returns, the local files are the ones
    that were there, the list of countries and the one file
    [fact_world_data.csv]; and that file, with the leading row label
    taken off every line, is the same for every cut, line for line.
    (The row label itself starts again at 0 in every block.) *)
Theorem fact_file_single_and_block_independent
  (final_directory : string) (w : World) (f : file) (g : grid)
  (sizes : list nat) :
  find_file "data/WorldData.csv" (fs w) = Some f ->
  data f = Csv g ->
  match process_world_file_data final_directory w,
        process_world_file_data final_directory (with_dask_blocks w sizes) with
  | (Ok _, w1), (Ok _, w2) =>
      (forall p, In p (map fst (fs w1))
                 <-> p = fact_path final_directory
                     \/ p = countries_path w
                     \/ In p (map fst (fs w)))
      /\ map fst (fs w2) = map fst (fs w1)
      /\ exists g1 g2,
           option_map data (find_file (fact_path final_directory) (fs w1))
           = Some (Csv g1)
           /\ option_map data (find_file (fact_path final_directory) (fs w2))
              = Some (Csv g2)
           /\ map (skipn 1) g1 = map (skipn 1) g2
           /\ length g1 = S (length (rows (read_csv g)))
  | (Raise e1, _), (Raise e2, _) => e1 = e2
  | _, _ => False
  end.
Proof.
  intros Hfile Hdata.
  rewrite (process_world_file_data_run final_directory w f g Hfile Hdata).
  rewrite (process_world_file_data_run final_directory (with_dask_blocks w sizes)
             f g Hfile Hdata).
  cbv zeta. cbn [dask_blocks with_dask_blocks].
  pose proof (extract_countries_blocks (dask_blocks w) sizes g) as Hc.
  pose proof (transform_world_data_blocks (dask_blocks w) sizes g) as Ht.
  destruct (extract_countries (dd_read_csv (dask_blocks w) g)) as [c1|e1],
    (extract_countries (dd_read_csv sizes g)) as [c2|e2];
    try contradiction; [| exact Hc].
  pose proof (transform_world_data_closed (dd_read_csv (dask_blocks w) g)) as Hclosed.
  destruct (transform_world_data (dd_read_csv (dask_blocks w) g)) as [o1|e1],
    (transform_world_data (dd_read_csv sizes g)) as [o2|e2];
    try contradiction; [| exact Ht].
  cbn [fs with_fs with_stdout with_dask_blocks map fst find_file].
  rewrite !String.eqb_refl. cbn [option_map data csv_file].
  split; [| split].
  - intros p. cbn [In]. rewrite In_remove_file. cbn [map fst In].
    rewrite In_remove_file.
    destruct (string_dec p (fact_path final_directory)) as [-> | Hne1];
      [tauto |].
    destruct (string_dec p (countries_path w)) as [-> | Hne2]; split.
    + tauto.
    + intros _. right. split; [| assumption]. now left.
    + intros [H | [[H | [H _]] _]]; auto; congruence.
    + intros [H | [H | H]]; try congruence. right. split; [| assumption].
      right. split; assumption.
  - rewrite !map_fst_remove_file. cbn [map fst].
    unfold countries_path. cbn [now with_dask_blocks].
    rewrite !map_fst_remove_file. reflexivity.
  - exists (dd_to_csv_single_file o1), (dd_to_csv_single_file o2).
    split; [reflexivity |]. split; [reflexivity |]. split; [exact Ht |].
    destruct (find _ world_data_dropped); [discriminate |].
    destruct (index_of _ _); [| discriminate].
    destruct (str_accessor_ok _); [| discriminate].
    injection Hclosed as ->.
    rewrite dd_to_csv_single_file_lines
      by (cbn [partitions dd_read_csv]; destruct (dask_blocks w); discriminate).
    cbn [length partitions]. f_equal. rewrite length_map.
    set (cols := dcolumns (dd_read_csv (dask_blocks w) g)).
    transitivity
      (length (map (fact_cells cols n) (data_of (dd_read_csv (dask_blocks w) g)))).
    + unfold data_of. cbn [partitions dd_read_csv].
      rewrite !length_map. apply length_concat_map_rows.
    + rewrite length_map, data_of_dd_read_csv, length_map. reflexivity.
Qed.

Lemma fact_file_single_and_block_independent_witness :
  match process_world_file_data "output" fact_world,
        process_world_file_data "output" (with_dask_blocks fact_world [2%nat]) with
  | (Ok _, w1), (Ok _, w2) =>
      (forall p, In p (map fst (fs w1))
                 <-> p = fact_path "output"
                     \/ p = countries_path fact_world
                     \/ In p (map fst (fs fact_world)))
      /\ map fst (fs w2) = map fst (fs w1)
      /\ exists g1 g2,
           option_map data (find_file (fact_path "output") (fs w1))
           = Some (Csv g1)
           /\ option_map data (find_file (fact_path "output") (fs w2))
              = Some (Csv g2)
           /\ map (skipn 1) g1 = map (skipn 1) g2
           /\ length g1 = S (length (rows (read_csv world_data_csv)))
  | (Raise e1, _), (Raise e2, _) => e1 = e2
  | _, _ => False
  end.
Proof.
  apply (fact_file_single_and_block_independent
           "output" fact_world (mkFile (Csv world_data_csv) 400 0)
           world_data_csv [2%nat]).
  - reflexivity.
  - reflexivity.
Defined.

(** C6, as stated, fails: the same source read in one block and read in
    two blocks gives two fact files whose lines differ, because every
    line starts with the row label and the labels start again at 0 in
    the second block. *)
Lemma fact_file_lines_depend_on_blocks :
  option_map data
    (find_file "output/fact_world_data.csv"
       (fs (snd (process_world_file_data "output" fact_world))))
  = Some (Csv [fact_header;
               ["0"; "004"; "15"; "5312"; "1961"; "ha"; "100"; "A"];
               ["1"; "004"; "15"; "5312"; "1962"; "ha"; "120"; "A"];
               ["2"; "008"; "15"; "5312"; "1961"; "ha"; "7"; "E"]])
  /\ option_map data
       (find_file "output/fact_world_data.csv"
          (fs (snd (process_world_file_data "output"
                      (with_dask_blocks fact_world [2%nat])))))
     = Some (Csv [fact_header;
                  ["0"; "004"; "15"; "5312"; "1961"; "ha"; "100"; "A"];
                  ["1"; "004"; "15"; "5312"; "1962"; "ha"; "120"; "A"];
                  ["0"; "008"; "15"; "5312"; "1961"; "ha"; "7"; "E"]])
  /\ ~ In ["2"; "008"; "15"; "5312"; "1961"; "ha"; "7"; "E"]
          [fact_header;
           ["0"; "004"; "15"; "5312"; "1961"; "ha"; "100"; "A"];
           ["1"; "004"; "15"; "5312"; "1962"; "ha"; "120"; "A"];
           ["0"; "008"; "15"; "5312"; "1961"; "ha"; "7"; "E"]].
Proof.
  split; [reflexivity |]. split; [reflexivity |].
  simpl. intros [H | [H | [H | [H | []]]]]; discriminate H.
Qed.

End FactFile.

(* ================================================================== *)
(** * Which files carry the row labels *)

Module RowLabels.

Import Countries FactTable FactFile.








Section WithLibrary.

Variable py_repr : json -> string.
Variable json_dumps : list json -> string.
Variable json_normalize : list json -> result DataFrame.

Ltac step H a E :=
  unfold bind at 1 in H;
  match type of H with
  | (let (_, _) := ?m ?w0 in _) = _ =>
      let e := fresh "e" in
      let w1 := fresh "w" in
      destruct (m w0) as [[a|e] w1] eqn:E; [| discriminate H]
  end.


End WithLibrary.

(** ** Reading the list of countries back *)









Lemma country_codes_app (vals : list (list value)) :
  forall acc : list string,
    country_codes vals acc
    = bind_result (country_codes vals []) (fun codes => Ok (acc ++ codes)).
Proof.
  induction vals as [|i rest IH]; intros acc; simpl.
  - now rewrite app_nil_r.
  - destruct (country_code i) as [code|e]; simpl; [| reflexivity].
    rewrite (IH (acc ++ [code])), (IH [code]).
    destruct (country_codes rest []) as [codes|e]; simpl; [| reflexivity].
    now rewrite <- app_assoc.
Qed.



(** ** The written files *)


Section Written.

Variable py_repr : json -> string.
Variable json_dumps : list json -> string.
Variable json_normalize : list json -> result DataFrame.


End Written.

(** ** The two steps on a small world *)


(** What the two files hold after the two steps. *)
Lemma pipeline_files :
  holds pipeline_world_1 "data/countries_list_2024-01-01T00-00-00.csv"
    [[""; "Area"; "Area Code (M49)"];
     ["0"; "Afghanistan"; "004"];
     ["2"; "Albania"; "008"]]
  /\ holds pipeline_world_2 "output/dim_country_info.csv"
       [[""; "capital"; "languages"];
        ["0"; "Kabul"; "Dari, Pashto, Turkmen"];
        ["1"; "Tirana"; "Albanian"]]
  /\ http_log pipeline_world_2 = [country_url "004"; country_url "008"].
Proof. repeat split; vm_compute; reflexivity. Qed.

End RowLabels.

(* ================================================================== *)
(** * Files written and files left alone *)

Module FileFacts.

Lemma find_file_remove (p q : string) (l : list (string * file)) :
  p <> q -> find_file p (remove_file q l) = find_file p l.
Proof.
  intros Hne. apply String.eqb_neq in Hne.
  unfold remove_file. induction l as [|[k g] rest IH]; [reflexivity |].
  cbn [filter fst]. destruct (String.eqb q k) eqn:E; cbn [negb find_file].
  - apply String.eqb_eq in E. subst k. now rewrite Hne.
  - destruct (String.eqb p k); [reflexivity | exact IH].
Qed.

Lemma find_file_other (p q : string) (f : file) (l : list (string * file)) :
  p <> q -> find_file p ((q, f) :: remove_file q l) = find_file p l.
Proof.
  intros Hne. cbn [find_file].
  rewrite (proj2 (String.eqb_neq p q) Hne). now apply find_file_remove.
Qed.

Lemma find_file_same (p : string) (f : file) (l : list (string * file)) :
  find_file p ((p, f) :: l) = Some f.
Proof. cbn [find_file]. now rewrite String.eqb_refl. Qed.

End FileFacts.

(* ================================================================== *)
(** * The dimension steps: outcomes and effects *)

Module DimensionSteps.

Import FileFacts.

Ltac run_step :=
  unfold bind at 1; unfold print at 1;
  unfold bind at 1; unfold pd_read_csv; cbn [fs with_stdout].

Ltac finish_step :=
  unfold bind at 1; unfold df_to_csv, write_file;
  cbn [fs with_fs with_stdout clock];
  unfold bind at 1; unfold s3_upload_file;
  cbn [fs with_fs with_stdout find_file];
  rewrite String.eqb_refl;
  unfold print, after_write, csv_file;
  cbn [fs with_fs with_stdout with_bucket clock bucket http http_log stdout now
       dask_blocks];
  rewrite <- app_assoc; reflexivity.

(** The run of a dimension step, by what it finds. *)
Lemma dimension_step_run (src name : string) (step : string -> M unit)
  (transform : DataFrame -> result DataFrame) :
  In (src, name, step, transform) dimension_steps ->
  exists first last,
    forall (final_directory : string) (w : World),
      step final_directory w
      = match find_file src (fs w) with
        | None =>
            (Raise (FileNotFoundError src), with_stdout w (stdout w ++ [first]))
        | Some f =>
            match data f with
            | JsonDoc _ => (Raise ValueError, with_stdout w (stdout w ++ [first]))
            | Csv g =>
                match transform (read_csv g) with
                | Raise e => (Raise e, with_stdout w (stdout w ++ [first]))
                | Ok df =>
                    (Ok tt,
                     after_write w (final_directory ++ "/" ++ name) name
                       (to_csv false true df) first last)
                end
            end
        end.
Proof.
  simpl. intros [H | [H | [H | [H | [H | []]]]]]; inversion H; subst; clear H;
    eexists; eexists; intros final_directory w.
  - unfold process_units_data. run_step.
    destruct (find_file _ (fs w)) as [f|]; [| reflexivity].
    destruct (data f) as [g|doc]; [| reflexivity].
    cbv zeta. finish_step.
  - unfold process_item_group_data. run_step.
    destruct (find_file _ (fs w)) as [f|]; [| reflexivity].
    destruct (data f) as [g|doc]; [| reflexivity].
    unfold bind at 1. unfold lift at 1.
    destruct (rename_drop _ _ _) as [df|e]; [| reflexivity].
    finish_step.
  - unfold process_flags_data. run_step.
    destruct (find_file _ (fs w)) as [f|]; [| reflexivity].
    destruct (data f) as [g|doc]; [| reflexivity].
    cbv zeta. finish_step.
  - unfold process_elements_data. run_step.
    destruct (find_file _ (fs w)) as [f|]; [| reflexivity].
    destruct (data f) as [g|doc]; [| reflexivity].
    cbv zeta. finish_step.
  - unfold process_country_group_data. run_step.
    destruct (find_file _ (fs w)) as [f|]; [| reflexivity].
    destruct (data f) as [g|doc]; [| reflexivity].
    unfold bind at 1. unfold lift at 1.
    destruct (rename_drop _ _ _) as [df|e]; [| reflexivity].
    finish_step.
Qed.

(** X1: a dimension step whose source file is missing raises
    [FileNotFoundError] for that file and leaves the local files and
    the bucket as they were. *)
Theorem dimension_step_missing_source (src name : string)
  (step : string -> M unit) (transform : DataFrame -> result DataFrame)
  (final_directory : string) (w : World) :
  In (src, name, step, transform) dimension_steps ->
  find_file src (fs w) = None ->
  exists w',
    step final_directory w = (Raise (FileNotFoundError src), w')
    /\ fs w' = fs w /\ bucket w' = bucket w.
Proof.
  intros Hin Hnone.
  destruct (dimension_step_run src name step transform Hin) as [first [last Hrun]].
  rewrite Hrun, Hnone. eexists. split; [reflexivity |]. split; reflexivity.
Qed.



Lemma dimension_step_missing_source_witness :
  exists w',
    process_flags_data "output" units_world
    = (Raise (FileNotFoundError "data/Flags.csv"), w')
    /\ fs w' = fs units_world /\ bucket w' = bucket units_world.
Proof.
  apply (dimension_step_missing_source "data/Flags.csv" "dim_flag.csv"
           process_flags_data (fun df => Ok (rename flags_mapping df))
           "output" units_world).
  - unfold dimension_steps. do 2 right. left. reflexivity.
  - reflexivity.
Defined.



End DimensionSteps.

(* ================================================================== *)
(** * The fact step: what is on disk and in the bucket when it ends *)

Module WorldStep.

Import FileFacts FactTable.




(** X5: when the list of countries was extracted and the transform of
    the fact table then raises, the step ends with that exception and
    leaves the list of countries on disk: no fact file, no upload, and
    no other local file changed. *)
Theorem world_step_partial_output (final_directory : string) (w : World)
  (f : file) (g : grid) (countries : DataFrame) (e : exn) :
  find_file "data/WorldData.csv" (fs w) = Some f ->
  data f = Csv g ->
  extract_countries (dd_read_csv (dask_blocks w) g) = Ok countries ->
  transform_world_data (dd_read_csv (dask_blocks w) g) = Raise e ->
  exists w',
    process_world_file_data final_directory w = (Raise e, w')
    /\ holds w' (countries_path w) (to_csv true true countries)
    /\ (forall p, p <> countries_path w ->
                  find_file p (fs w') = find_file p (fs w))
    /\ bucket w' = bucket w.
Proof.
  intros Hfile Hdata Hextract Htransform.
  rewrite (process_world_file_data_run final_directory w f g Hfile Hdata).
  cbv zeta. rewrite Hextract, Htransform.
  eexists. split; [reflexivity |].
  unfold holds. cbn [fs bucket with_fs with_stdout].
  split; [| split].
  - now rewrite find_file_same.
  - intros p Hp. now apply find_file_other.
  - reflexivity.
Qed.



Lemma world_step_partial_output_witness :
  exists w',
    process_world_file_data "output" (world_with_data world_data_two_columns)
    = (Raise (KeyError "Area Code"), w')
    /\ holds w' (countries_path (world_with_data world_data_two_columns))
         (to_csv true true
            {| columns := ["Area"; "Area Code (M49)"];
               rows := [(0%Z, [VStr "Afghanistan"; VStr "004"])] |})
    /\ (forall p, p <> countries_path (world_with_data world_data_two_columns) ->
                  find_file p (fs w')
                  = find_file p (fs (world_with_data world_data_two_columns)))
    /\ bucket w' = bucket (world_with_data world_data_two_columns).
Proof.
  apply (world_step_partial_output "output"
           (world_with_data world_data_two_columns)
           (mkFile (Csv world_data_two_columns) 100 0)
           world_data_two_columns).
  - reflexivity.
  - reflexivity.
  - vm_compute. reflexivity.
  - vm_compute. reflexivity.
Defined.


End WorldStep.

(* ================================================================== *)
(** * What a step leaves alone *)

Module Effects.

Import FileFacts.

Section Components.

Context {S : Type} (component : World -> S).

Lemma preserves_bind {A B : Type} (m : M A) (k : A -> M B) :
  preserves component m ->
  (forall a, preserves component (k a)) ->
  preserves component (bind m k).
Proof.
  intros Hm Hk w. unfold bind. specialize (Hm w).
  destruct (m w) as [[a|e] w1]; cbn [snd] in *.
  - now rewrite Hk.
  - exact Hm.
Qed.

Lemma kept_on_raise_bind {A B : Type} (m : M A) (k : A -> M B) :
  preserves component m ->
  (forall a, kept_on_raise component (k a)) ->
  kept_on_raise component (bind m k).
Proof.
  intros Hm Hk w e w' H. unfold bind in H. specialize (Hm w).
  destruct (m w) as [[a|e1] w1]; cbn [snd] in *.
  - rewrite <- Hm. exact (Hk a w1 e w' H).
  - injection H as _ <-. exact Hm.
Qed.

Lemma preserves_kept_on_raise {A : Type} (m : M A) :
  preserves component m -> kept_on_raise component m.
Proof. intros Hm w e w' H. specialize (Hm w). now rewrite H in Hm. Qed.

(** A call that only looks at the world. *)
Lemma preserves_reader {A : Type} (m : M A) :
  (forall w, snd (m w) = w) -> preserves component m.
Proof. intros H w. now rewrite H. Qed.

Lemma preserves_print (line : string) :
  (forall w l, component (with_stdout w l) = component w) ->
  preserves component (print line).
Proof. intros H w. apply H. Qed.

Lemma preserves_write_file (path : string) (c : content) (size : N) :
  (forall w l, component (with_fs w l) = component w) ->
  preserves component (write_file path c size).
Proof. intros H w. apply H. Qed.

Lemma preserves_upload (path key : string) :
  (forall w l, component (with_bucket w l) = component w) ->
  preserves component (s3_upload_file path key).
Proof.
  intros H w. unfold s3_upload_file.
  destruct (find_file path (fs w)); [apply H | reflexivity].
Qed.

Lemma preserves_requests_get (url : string) :
  (forall w l, component (with_http_log w l) = component w) ->
  preserves component (requests_get url).
Proof.
  intros H w. unfold requests_get. cbv zeta.
  destruct (http w url); apply H.
Qed.

Lemma preserves_fetch_countries (codes : list string) :
  (forall w l, component (with_http_log w l) = component w) ->
  forall acc, preserves component (fetch_countries codes acc).
Proof.
  intros H. induction codes as [|i rest IH]; intros acc; cbn [fetch_countries].
  - now apply preserves_reader.
  - apply preserves_bind; [now apply preserves_requests_get |].
    intros r. destruct (201 <=? status_code r)%Z; [apply IH |].
    apply preserves_bind; [| intros doc; apply IH].
    apply preserves_reader. intros w. unfold response_json.
    now destruct (body r).
Qed.

End Components.

(** The calls that only look at the world. *)
Lemma reader_pd_read_csv (path : string) (w : World) :
  snd (pd_read_csv path w) = w.
Proof.
  unfold pd_read_csv. destruct (find_file path (fs w)) as [f|]; [| reflexivity].
  now destruct (data f).
Qed.

Lemma reader_dd_read (path : string) (w : World) : snd (dd_read path w) = w.
Proof.
  unfold dd_read. destruct (find_file path (fs w)) as [f|]; [| reflexivity].
  now destruct (data f).
Qed.

Lemma reader_json_load (path : string) (w : World) : snd (json_load path w) = w.
Proof.
  unfold json_load. destruct (find_file path (fs w)) as [f|]; [| reflexivity].
  now destruct (data f).
Qed.

Lemma reader_max_by_ctime (paths : list string) (w : World) :
  snd (max_by_ctime paths w) = w.
Proof. now destruct paths. Qed.

Lemma reader_os_stat_size (path : string) (w : World) :
  snd (os_stat_size path w) = w.
Proof. unfold os_stat_size. now destruct (find_file path (fs w)). Qed.

Ltac reader :=
  apply preserves_reader; intros ?;
  first [ reflexivity
        | apply reader_pd_read_csv
        | apply reader_dd_read
        | apply reader_json_load
        | apply reader_max_by_ctime
        | apply reader_os_stat_size ].

(** One call after the other, each by the lemma of its kind; a
    component an effect reaches makes the tactic fail at that call. *)
Ltac preserved :=
  lazymatch goal with
  | |- preserves _ (bind _ _) =>
      apply preserves_bind; [preserved | intros ?; preserved]
  | |- preserves _ (if ?b then _ else _) => destruct b; preserved
  | |- preserves _ (print _) =>
      apply preserves_print; intros; reflexivity
  | |- preserves _ (write_file _ _ _) =>
      apply preserves_write_file; intros; reflexivity
  | |- preserves _ (df_to_csv _ _ _) =>
      apply preserves_write_file; intros; reflexivity
  | |- preserves _ (ddf_to_csv_single_file _ _) =>
      apply preserves_write_file; intros; reflexivity
  | |- preserves _ (s3_upload_file _ _) =>
      apply preserves_upload; intros; reflexivity
  | |- preserves _ (fetch_countries _ _) =>
      apply preserves_fetch_countries; intros; reflexivity
  | |- preserves _ _ => reader
  end.

Lemma check_artifact_preserves {S : Type} (component : World -> S)
  (name : string) :
  (forall w l, component (with_stdout w l) = component w) ->
  preserves component (check_artifact name).
Proof.
  intros H. unfold check_artifact. cbv zeta.
  repeat (apply preserves_bind;
          [first [now apply preserves_print | reader
                 | match goal with
                   | |- preserves _ (if ?b then _ else _) =>
                       destruct b; now apply preserves_print
                   end]
          | intros ?]).
  match goal with |- preserves _ (if ?b then _ else _) => destruct b end;
    now apply preserves_print.
Qed.

Lemma quality_checks_preserves {S : Type} (component : World -> S) :
  (forall w l, component (with_stdout w l) = component w) ->
  preserves component quality_checks.
Proof.
  intros H. unfold quality_checks.
  repeat (apply preserves_bind;
          [first [now apply preserves_print | now apply check_artifact_preserves]
          | intros ?]).
  now apply preserves_print.
Qed.

(** X7: no step other than the country step calls the web service:
    the record of the calls made is the same before and after, whatever
    the outcome of the step. *)
Theorem offline_steps_never_call_service (final_directory : string)
  (m : M unit) :
  In m (offline_steps final_directory) -> preserves http_log m.
Proof.
  simpl. intros [H | [H | [H | [H | [H | [H | [H | []]]]]]]]; subst m.
  - unfold process_units_data. preserved.
  - unfold process_item_group_data. preserved.
  - unfold process_flags_data. preserved.
  - unfold process_elements_data. preserved.
  - unfold process_country_group_data. preserved.
  - unfold process_world_file_data. preserved.
  - apply quality_checks_preserves. reflexivity.
Qed.

(** X8: the checks change neither the local files nor the bucket,
    whether they return or raise. *)
Theorem quality_checks_read_only (w : World) :
  fs (snd (quality_checks w)) = fs w
  /\ bucket (snd (quality_checks w)) = bucket w.
Proof.
  split.
  - apply (quality_checks_preserves fs). reflexivity.
  - apply (quality_checks_preserves bucket). reflexivity.
Qed.

(** The upload is the last call of a step that can raise. *)
Lemma upload_then_print_kept (path key line : string) :
  kept_on_raise bucket (bind (s3_upload_file path key) (fun _ => print line)).
Proof.
  intros w e w' H. unfold bind, s3_upload_file in H.
  destruct (find_file path (fs w)).
  - discriminate.
  - now injection H as _ <-.
Qed.

Ltac kept :=
  lazymatch goal with
  | |- kept_on_raise _ (bind (s3_upload_file _ _) _) =>
      apply upload_then_print_kept
  | |- kept_on_raise _ (bind _ _) =>
      apply kept_on_raise_bind; [preserved | intros ?; kept]
  end.

Section WithLibrary.

Variable py_repr : json -> string.
Variable json_dumps : list json -> string.
Variable json_normalize : list json -> result DataFrame.

(** X9: a step that raises has uploaded nothing: the bucket is as it
    was before the step. *)
Theorem failed_step_uploads_nothing (final_directory : string) (m : M unit) :
  In m (upload_steps py_repr json_dumps json_normalize final_directory) ->
  kept_on_raise bucket m.
Proof.
  simpl. intros [H | [H | [H | [H | [H | [H | [H | []]]]]]]]; subst m.
  - unfold process_units_data. kept.
  - unfold process_item_group_data. kept.
  - unfold process_flags_data. kept.
  - unfold process_elements_data. kept.
  - unfold process_country_group_data. kept.
  - unfold process_world_file_data. kept.
  - unfold process_countries_data. kept.
Qed.

Lemma preserves_write_other (p path : string) (c : content) (size : N) :
  p <> path ->
  preserves (fun w => find_file p (fs w)) (write_file path c size).
Proof.
  intros Hne w. unfold write_file. cbn [snd fs with_fs].
  now apply find_file_other.
Qed.

Lemma preserves_upload_other (k path key : string) :
  k <> key ->
  preserves (fun w => find_file k (bucket w)) (s3_upload_file path key).
Proof.
  intros Hne w. unfold s3_upload_file.
  destruct (find_file path (fs w)); [| reflexivity].
  cbn [snd bucket with_bucket]. now apply find_file_other.
Qed.

(** X10: the country step changes no local file other than
    [data/countries_info.json] and its own output, and no object other
    than [dim_country_info.csv], whether it returns or raises. *)
Theorem country_step_frame (final_directory : string) (w : World) :
  let w' := snd (process_countries_data py_repr json_dumps json_normalize
                   final_directory w) in
  (forall p, p <> "data/countries_info.json" ->
             p <> (final_directory ++ "/dim_country_info.csv")%string ->
             find_file p (fs w') = find_file p (fs w))
  /\ (forall k, k <> "dim_country_info.csv" ->
                find_file k (bucket w') = find_file k (bucket w)).
Proof.
  cbv zeta. split.
  - intros p Hjson Hout.
    assert (Hp : preserves (fun w => find_file p (fs w))
                   (process_countries_data py_repr json_dumps json_normalize
                      final_directory)); [| exact (Hp w)].
    unfold process_countries_data.
    repeat (apply preserves_bind;
            [first [now apply preserves_write_other
                   | unfold df_to_csv; cbv zeta; now apply preserves_write_other
                   | preserved]
            | intros ?]).
    preserved.
  - intros k Hk.
    assert (Hk' : preserves (fun w => find_file k (bucket w))
                    (process_countries_data py_repr json_dumps json_normalize
                       final_directory)); [| exact (Hk' w)].
    unfold process_countries_data.
    repeat (apply preserves_bind;
            [first [now apply preserves_upload_other | preserved]
            | intros ?]).
    preserved.
Qed.

End WithLibrary.

Lemma offline_steps_never_call_service_witness :
  http_log (snd (process_world_file_data "output" fact_world))
  = http_log fact_world.
Proof.
  apply (offline_steps_never_call_service "output"
           (process_world_file_data "output")).
  unfold offline_steps. do 5 right. left. reflexivity.
Defined.

Lemma failed_step_uploads_nothing_witness :
  bucket (snd (process_countries_data (fun _ => "") (fun _ => "[]")
                 two_column_table "output" (listed_world flaky_service)))
  = bucket (listed_world flaky_service).
Proof.
  apply (failed_step_uploads_nothing (fun _ => "") (fun _ => "[]")
           two_column_table "output"
           (process_countries_data (fun _ => "") (fun _ => "[]")
              two_column_table "output")
           ltac:(unfold upload_steps; do 6 right; left; reflexivity)
           (listed_world flaky_service) RequestException).
  vm_compute. reflexivity.
Defined.

End Effects.

(* ================================================================== *)
(** * The report of the checks *)

Module Report.

Import QualityChecks.

Local Open Scope prog_scope.




(** X12: the bucket check asks for the objects whose key starts with
    the file name, so any such object makes the file count as uploaded,
    whether or not an object has the name itself as key. *)
Theorem upload_check_is_by_prefix (name key : string) (w : World)
  (f object : file) :
  find_file ("output/" ++ name) (fs w) = Some f ->
  In (key, object) (bucket w) ->
  startswith name key = true ->
  check_artifact name w
  = (Ok tt,
     with_stdout w
       (stdout w ++ ["The file is saved in the correct local folder";
                     line_non_empty (st_size f);
                     "Object has fully uploaded to S3"])).
Proof.
  intros Hf Hin Hprefix.
  rewrite (check_artifact_present name w f Hf).
  assert (Hlisted : listed w name = true).
  { unfold listed. apply existsb_exists. exists (key, object).
    split; [exact Hin | exact Hprefix]. }
  now rewrite Hlisted.
Qed.

Lemma upload_check_is_by_prefix_witness :
  check_artifact "dim_unit.csv" world_with_backup_object
  = (Ok tt,
     with_stdout world_with_backup_object
       (stdout world_with_backup_object
        ++ ["The file is saved in the correct local folder";
            line_non_empty (st_size small_file);
            "Object has fully uploaded to S3"])).
Proof.
  apply (upload_check_is_by_prefix "dim_unit.csv" "dim_unit.csv.bak"
           world_with_backup_object small_file small_file).
  - reflexivity.
  - left. reflexivity.
  - reflexivity.
Defined.

End Report.

(* ================================================================== *)
(** * The codes of the countries *)

Module Codes.

Import RowLabels.

(** ** Zero padding *)

Lemma length_zeros (n : nat) : String.length (zeros n) = n.
Proof. induction n as [|k IH]; simpl; [reflexivity | now rewrite IH]. Qed.

Lemma length_append (s t : string) :
  String.length (s ++ t) = (String.length s + String.length t)%nat.
Proof. induction s as [|c rest IH]; simpl; [reflexivity | now rewrite IH]. Qed.

Lemma to_uint_not_nil (n : N) : N.to_uint n <> Nil.
Proof.
  destruct n as [|p]; [discriminate |].
  apply DecimalPos.Unsigned.to_uint_nonnil.
Qed.

(** The digits [str] prints read back as the number. *)
Lemma parse_nat_digits (n : N) : parse_nat (digits n) = Some n.
Proof.
  unfold parse_nat, digits.
  pose proof (NilZero.usu (N.to_uint n) (to_uint_not_nil n)) as H.
  destruct (NilZero.string_of_uint (N.to_uint n)); [discriminate |].
  rewrite H. cbn [option_map]. now rewrite DecimalN.Unsigned.of_to.
Qed.

(** A zero in front does not change the number read. *)
Lemma parse_nat_zero (s : string) (n : N) :
  parse_nat s = Some n -> parse_nat (String "0" s) = Some n.
Proof.
  destruct s as [|c rest]; [discriminate |].
  unfold parse_nat, NilZero.uint_of_string.
  change (NilEmpty.uint_of_string (String "0" (String c rest)))
    with (option_map D0 (NilEmpty.uint_of_string (String c rest))).
  destruct (NilEmpty.uint_of_string (String c rest)) as [u|]; [| discriminate].
  cbn [option_map]. intros H. exact H.
Qed.

Lemma parse_nat_zeros (k : nat) (s : string) (n : N) :
  parse_nat s = Some n -> parse_nat (zeros k ++ s) = Some n.
Proof.
  intros H. induction k as [|k IH]; [exact H |].
  cbn [zeros append]. now apply parse_nat_zero.
Qed.

(** What reads as a natural number has no sign. *)
Lemma parse_int_of_parse_nat (s : string) (n : N) :
  parse_nat s = Some n -> parse_int s = Some (Z.of_N n).
Proof.
  intros H. destruct s as [|c rest]; [discriminate |].
  destruct (Ascii.eqb c "-") eqn:E.
  - apply Ascii.eqb_eq in E. subst c.
    unfold parse_nat, NilZero.uint_of_string in H.
    cbn [NilEmpty.uint_of_string] in H.
    destruct (NilEmpty.uint_of_string rest); discriminate.
  - assert (Hint : parse_int (String c rest)
                   = option_map Z.of_N (parse_nat (String c rest))).
    { destruct c as [[|] [|] [|] [|] [|] [|] [|] [|]];
        first [reflexivity | discriminate]. }
    now rewrite Hint, H.
Qed.

(** X13: the zero-padded code reads back as the number it was made of,
    so two numbers never get the same code; its width is three
    characters, or the width of the plain number when that is more:
    padding never cuts a digit. *)
Theorem format_03d_reads_back (z : Z) :
  parse_int (format_03d z) = Some z
  /\ String.length (format_03d z) = Nat.max 3 (String.length (str_int z)).
Proof.
  unfold format_03d, str_int.
  destruct (z <? 0)%Z eqn:Hz; cbv zeta.
  - apply Z.ltb_lt in Hz. split.
    + cbn [parse_int].
      rewrite (parse_nat_zeros _ _ _ (parse_nat_digits (Z.abs_N z))).
      cbn [option_map]. f_equal. rewrite N2Z.inj_abs_N. lia.
    + cbn [String.length]. rewrite length_append, length_zeros. lia.
  - apply Z.ltb_ge in Hz. split.
    + rewrite (parse_int_of_parse_nat _ (Z.to_N z)).
      * f_equal. now apply Z2N.id.
      * apply parse_nat_zeros, parse_nat_digits.
    + rewrite length_append, length_zeros. lia.
Qed.

(** ** The loop over the rows *)

Lemma country_code_ok (i : list value) (code : string) :
  country_code i = Ok code
  <-> exists z, nth_error i 2 = Some (VInt z) /\ code = format_03d z.
Proof.
  unfold country_code. split.
  - destruct (nth_error i 2) as [[z|s|]|]; try discriminate.
    intros H. injection H as <-. now exists z.
  - intros [z [-> ->]]. reflexivity.
Qed.

(** X14: the loop that derives the codes returns exactly when every row
    of the list of countries has an integer at position 2; the codes are
    then the zero-padded integers, one per row and in the order of the
    rows. *)
Theorem country_codes_returns_iff (vals : list (list value))
  (codes : list string) :
  country_codes vals [] = Ok codes
  <-> Forall2 (fun i code =>
                 exists z, nth_error i 2 = Some (VInt z)
                           /\ code = format_03d z) vals codes.
Proof.
  revert codes. induction vals as [|i rest IH]; intros codes.
  - cbn [country_codes]. split.
    + intros H. injection H as <-. constructor.
    + intros H. inversion H. reflexivity.
  - cbn [country_codes]. split.
    + destruct (country_code i) as [code|e] eqn:Hcode; [| discriminate].
      cbn [bind_result]. rewrite country_codes_app.
      destruct (country_codes rest []) as [tail|e] eqn:Hrest; [| discriminate].
      cbn [bind_result app]. intros H. injection H as <-.
      constructor.
      * now apply country_code_ok.
      * now apply IH.
    + intros H. inversion H as [|i' code rest' tail Hi Hrest]; subst.
      apply country_code_ok in Hi. rewrite Hi. cbn [bind_result].
      rewrite country_codes_app.
      apply IH in Hrest. rewrite Hrest. reflexivity.
Qed.

(** X15: the loop stops at the first row without an integer at
    position 2: with [IndexError] when the row has fewer than three
    cells (a list written without the row labels), with [ValueError]
    when the cell is text or missing; the rows after it are not looked
    at. *)
Theorem country_codes_first_bad_row (good rest : list (list value))
  (bad : list value) :
  Forall (fun i => exists z, nth_error i 2 = Some (VInt z)) good ->
  (forall z, nth_error bad 2 <> Some (VInt z)) ->
  country_codes (good ++ bad :: rest) []
  = Raise (if (length bad <=? 2)%nat then IndexError else ValueError).
Proof.
  intros Hgood Hbad.
  assert (Hcode : country_code bad
                  = Raise (if (length bad <=? 2)%nat then IndexError
                           else ValueError)).
  { unfold country_code.
    destruct (nth_error bad 2) as [v|] eqn:E.
    - assert (Hlen : (2 < length bad)%nat)
        by (apply nth_error_Some; congruence).
      apply Nat.leb_gt in Hlen. rewrite Hlen.
      destruct v as [z| |]; [now destruct (Hbad z) | reflexivity | reflexivity].
    - apply nth_error_None in E. apply Nat.leb_le in E. now rewrite E. }
  induction Hgood as [|i good' [z Hz] _ IH].
  - rewrite app_nil_l. cbn [country_codes]. now rewrite Hcode.
  - rewrite <- app_comm_cons. cbn [country_codes].
    unfold country_code at 1. rewrite Hz. cbn [bind_result].
    rewrite country_codes_app, IH. reflexivity.
Qed.

Lemma country_codes_first_bad_row_witness :
  country_codes
    ([[VInt 0; VStr "Afghanistan"; VInt 4]]
       ++ [VStr "Albania"; VInt 8] :: [[VInt 2; VStr "Algeria"; VInt 12]]) []
  = Raise (if (length [VStr "Albania"; VInt 8] <=? 2)%nat then IndexError
           else ValueError).
Proof.
  apply (country_codes_first_bad_row
           [[VInt 0; VStr "Afghanistan"; VInt 4]]
           [[VInt 2; VStr "Algeria"; VInt 12]]
           [VStr "Albania"; VInt 8]).
  - constructor; [| constructor]. exists 4%Z. reflexivity.
  - intros z. discriminate.
Defined.

End Codes.

(* ================================================================== *)
(** * The calls of the country step *)

Module Calls.

Import Enrichment Effects.

Local Open Scope prog_scope.

(** The loop over a list of codes in two parts. *)
Lemma fetch_countries_app (before after : list string) :
  forall (acc : list json) (w : World),
    fetch_countries (before ++ after) acc w
    = bind (fetch_countries before acc) (fetch_countries after) w.
Proof.
  induction before as [|c rest IH]; intros acc w.
  - reflexivity.
  - rewrite <- app_comm_cons. cbn [fetch_countries]. unfold bind.
    destruct (requests_get (country_url c) w) as [[r|e] w1]; [| reflexivity].
    destruct (201 <=? status_code r)%Z.
    + rewrite IH. reflexivity.
    + destruct (response_json r w1) as [[doc|e] w2]; [| reflexivity].
      rewrite IH. reflexivity.
Qed.

(** The call that ends the loop. *)
Lemma fetch_countries_failing_call (code : string) (after : list string)
  (e : exn) (acc : list json) (w : World) :
  call_error (http w) code = Some e ->
  fetch_countries (code :: after) acc w
  = (Raise e, with_http_log w (http_log w ++ [country_url code])).
Proof.
  intros Herror. unfold call_error in Herror.
  cbn [fetch_countries]. unfold bind at 1, requests_get.
  destruct (http w (country_url code)) as [r|].
  - destruct (201 <=? status_code r)%Z; [discriminate |].
    unfold bind, response_json.
    destruct (body r); [discriminate |].
    injection Herror as <-. reflexivity.
  - injection Herror as <-. reflexivity.
Qed.

(** The log after the calls for the codes before the failing one and
    the failing call. *)
Lemma log_after_failing_call (w : World) (before : list string) (code : string) :
  with_http_log (with_http_log w (http_log w ++ map country_url before))
    (http_log (with_http_log w (http_log w ++ map country_url before))
     ++ [country_url code])
  = with_http_log w (http_log w ++ map country_url (before ++ [code])).
Proof.
  unfold with_http_log. cbn [fs bucket http http_log stdout now clock dask_blocks].
  now rewrite map_app, app_assoc.
Qed.

(** X16: the loop over the codes ends at the first call that fails,
    with the exception of that call: [RequestException] when the request
    itself raises, [JSONDecodeError] when an answer below 201 has no
    JSON body.  The codes after it are never asked for, and the records
    collected so far are not returned. *)
Theorem fetch_countries_stops_at_error (before after : list string)
  (code : string) (e : exn) (acc : list json) (w : World) :
  (forall c, In c before -> answers (http w) c) ->
  call_error (http w) code = Some e ->
  fetch_countries (before ++ code :: after) acc w
  = (Raise e,
     with_http_log w (http_log w ++ map country_url (before ++ [code]))).
Proof.
  intros Hbefore Herror.
  rewrite fetch_countries_app. unfold bind at 1.
  rewrite (fetch_countries_all before acc w Hbefore).
  rewrite (fetch_countries_failing_call code after e _
             (with_http_log w (http_log w ++ map country_url before)) Herror).
  now rewrite log_after_failing_call.
Qed.

Lemma newest_same_files (w w' : World) (paths : list string) :
  fs w = fs w' -> forall best, newest w best paths = newest w' best paths.
Proof.
  intros Hfs. induction paths as [|p rest IH]; intros best; [reflexivity |].
  cbn [newest]. unfold getctime. rewrite Hfs, !IH. reflexivity.
Qed.

Section WithLibrary.

Variable py_repr : json -> string.
Variable json_dumps : list json -> string.
Variable json_normalize : list json -> result DataFrame.

(** The step up to the loop over the codes, when the newest list of
    countries reads as a table with an integer at position 2 of every
    row. *)
Lemma process_countries_data_codes (final_directory : string) (w : World)
  (p : string) (others : list string) (f : file) (g : grid)
  (codes : list string) :
  fst (glob_prefix "data/countries_list_" w) = Ok (p :: others) ->
  find_file (newest w p others) (fs w) = Some f ->
  data f = Csv g ->
  country_codes (values_of (read_csv g)) [] = Ok codes ->
  process_countries_data py_repr json_dumps json_normalize final_directory w
  = after_codes py_repr json_dumps json_normalize final_directory codes
      (with_stdout w
         (stdout w ++ [countries_start_line; newest w p others;
                       digits (N.of_nat (length codes))])).
Proof.
  intros Hglob Hfile Hdata Hcodes.
  assert (Hrun : forall lines,
             glob_prefix "data/countries_list_" (with_stdout w lines)
             = (Ok (p :: others), with_stdout w lines)).
  { intros lines. unfold glob_prefix in *. cbn [fst] in Hglob.
    f_equal. exact Hglob. }
  unfold process_countries_data.
  unfold bind at 1. unfold print at 1.
  unfold bind at 1. rewrite Hrun.
  unfold bind at 1. unfold max_by_ctime at 1.
  rewrite (newest_same_files _ w) by reflexivity.
  unfold bind at 1. unfold print at 1.
  unfold bind at 1. unfold pd_read_csv at 1.
  cbn [fs with_stdout]. rewrite Hfile, Hdata.
  unfold bind at 1. unfold lift at 1. rewrite Hcodes.
  unfold bind at 1. unfold print at 1.
  cbn [stdout with_stdout].
  unfold after_codes, with_stdout.
  cbn [fs bucket http http_log stdout now clock dask_blocks].
  rewrite <- !app_assoc. reflexivity.
Qed.

(** X17: when a call of the loop fails, the country step ends with the
    exception of that call and keeps nothing: the records fetched before
    it are lost, no local file is written or changed, nothing is
    uploaded, and the codes after the failed one were never asked for. *)
Theorem country_step_fetch_failure (final_directory : string) (w : World)
  (p : string) (others : list string) (f : file) (g : grid)
  (before after : list string) (code : string) (e : exn) :
  fst (glob_prefix "data/countries_list_" w) = Ok (p :: others) ->
  find_file (newest w p others) (fs w) = Some f ->
  data f = Csv g ->
  country_codes (values_of (read_csv g)) [] = Ok (before ++ code :: after) ->
  (forall c, In c before -> answers (http w) c) ->
  call_error (http w) code = Some e ->
  exists w',
    process_countries_data py_repr json_dumps json_normalize final_directory w
    = (Raise e, w')
    /\ fs w' = fs w
    /\ bucket w' = bucket w
    /\ http_log w' = http_log w ++ map country_url (before ++ [code]).
Proof.
  intros Hglob Hfile Hdata Hcodes Hbefore Herror.
  rewrite (process_countries_data_codes final_directory w p others f g _
             Hglob Hfile Hdata Hcodes).
  unfold after_codes. unfold bind at 1.
  set (w0 := with_stdout w _).
  rewrite fetch_countries_app. unfold bind at 1.
  rewrite (fetch_countries_all before [] w0 Hbefore).
  rewrite (fetch_countries_failing_call code after e _
             (with_http_log w0 (http_log w0 ++ map country_url before)) Herror).
  rewrite log_after_failing_call.
  eexists. split; [reflexivity |]. repeat split.
Qed.

(** X18: when every call answers, the country step asks the service
    once per row of the newest list of countries, in the order of the
    rows, for the zero-padded code of the row, and for nothing else,
    whatever becomes of the records afterwards. *)
Theorem country_step_requests (final_directory : string) (w : World)
  (p : string) (others : list string) (f : file) (g : grid)
  (codes : list string) :
  fst (glob_prefix "data/countries_list_" w) = Ok (p :: others) ->
  find_file (newest w p others) (fs w) = Some f ->
  data f = Csv g ->
  country_codes (values_of (read_csv g)) [] = Ok codes ->
  (forall c, In c codes -> answers (http w) c) ->
  http_log (snd (process_countries_data py_repr json_dumps json_normalize
                   final_directory w))
  = http_log w ++ map country_url codes.
Proof.
  intros Hglob Hfile Hdata Hcodes Hall.
  rewrite (process_countries_data_codes final_directory w p others f g _
             Hglob Hfile Hdata Hcodes).
  unfold after_codes. unfold bind at 1.
  set (w0 := with_stdout w _).
  rewrite (fetch_countries_all codes [] w0 Hall).
  match goal with
  | |- http_log (snd (bind ?m ?k ?w1)) = _ =>
      assert (Hrest : preserves http_log (bind m k))
  end.
  { preserved. }
  rewrite Hrest. reflexivity.
Qed.

End WithLibrary.

Lemma fetch_countries_stops_at_error_witness :
  fetch_countries (["004"] ++ "008" :: ["012"]) [] (listed_world flaky_service)
  = (Raise RequestException,
     with_http_log (listed_world flaky_service)
       (http_log (listed_world flaky_service)
        ++ map country_url (["004"] ++ ["008"]))).
Proof.
  apply (fetch_countries_stops_at_error ["004"] ["012"] "008" RequestException
           [] (listed_world flaky_service)).
  - intros c [<- | []]. eexists. split; [reflexivity |].
    intros _. eexists. reflexivity.
  - reflexivity.
Defined.

Lemma country_step_fetch_failure_witness :
  exists w',
    process_countries_data (fun _ => "") (fun _ => "[]") two_column_table
      "output" (listed_world flaky_service)
    = (Raise RequestException, w')
    /\ fs w' = fs (listed_world flaky_service)
    /\ bucket w' = bucket (listed_world flaky_service)
    /\ http_log w'
       = http_log (listed_world flaky_service)
         ++ map country_url (["004"] ++ ["008"]).
Proof.
  apply (country_step_fetch_failure (fun _ => "") (fun _ => "[]")
           two_column_table "output" (listed_world flaky_service)
           "data/countries_list_2023-12-31T00-00-00.csv"
           ["data/countries_list_2024-01-01T00-00-00.csv"]
           (mkFile (Csv countries_list_csv) 60 2) countries_list_csv
           ["004"] [] "008" RequestException).
  - vm_compute. reflexivity.
  - vm_compute. reflexivity.
  - reflexivity.
  - vm_compute. reflexivity.
  - intros c [<- | []]. eexists. split; [reflexivity |].
    intros _. eexists. reflexivity.
  - reflexivity.
Defined.

Lemma country_step_requests_witness :
  http_log (snd (process_countries_data (fun _ => "") (fun _ => "[]")
                   two_column_table "output" (listed_world country_service)))
  = http_log (listed_world country_service)
    ++ map country_url ["004"; "008"].
Proof.
  apply (country_step_requests (fun _ => "") (fun _ => "[]")
           two_column_table "output" (listed_world country_service)
           "data/countries_list_2023-12-31T00-00-00.csv"
           ["data/countries_list_2024-01-01T00-00-00.csv"]
           (mkFile (Csv countries_list_csv) 60 2) countries_list_csv).
  - vm_compute. reflexivity.
  - vm_compute. reflexivity.
  - reflexivity.
  - vm_compute. reflexivity.
  - intros c [<- | [<- | []]]; (eexists; split; [reflexivity |]);
      intros _; eexists; reflexivity.
Defined.

End Calls.

(* ================================================================== *)
(** * Records the normalization does not take *)

Module Shapes.

Import Normalization.

Section WithRepr.

Variable py_repr : json -> string.

(** X19: a [languages] that is not empty and not a mapping (a list of
    names, a plain string, a number) makes the normalization raise
    [AttributeError]: it has no [values()]. *)
Theorem languages_not_a_mapping_raises (fields : list (string * json))
  (languages : json) :
  lookup "languages" fields = Some languages ->
  truthy languages = true ->
  (forall m, languages <> JObj m) ->
  normalize_item py_repr (JObj fields) = Raise AttributeError.
Proof.
  intros Hl Tl Hshape.
  unfold normalize_item. cbn [getitem]. rewrite Hl. cbn [bind_result].
  rewrite Tl.
  destruct languages as [| b | n | s | items | m];
    try reflexivity.
  now destruct (Hshape m).
Qed.

(** The operand check of [join] knows one exception. *)
Lemma all_strings_raises (items : list json) (e : exn) :
  all_strings items = Raise e -> e = TypeError.
Proof.
  induction items as [|v rest IH]; [discriminate |].
  cbn [all_strings].
  destruct v; try (intros H; now injection H as <-).
  destruct (all_strings rest) as [l|e'].
  - discriminate.
  - intros H. injection H as <-. now apply IH.
Qed.

Lemma joined_parts_raises (capital : json) (e : exn) :
  bind_result (iterate capital) all_strings = Raise e -> e = TypeError.
Proof.
  destruct capital; cbn [iterate bind_result];
    try (intros H; now injection H as <-);
    apply all_strings_raises.
Qed.

(** X20: a [capital] that is not empty and cannot be joined (a number,
    a list with an item that is not a string) makes the normalization
    raise [TypeError], also when [languages] was flattened before. *)
Theorem capital_not_joinable_raises (fields : list (string * json))
  (languages capital : json) :
  lookup "languages" fields = Some languages ->
  languages_shape languages ->
  lookup "capital" fields = Some capital ->
  truthy capital = true ->
  (forall parts, bind_result (iterate capital) all_strings <> Ok parts) ->
  normalize_item py_repr (JObj fields) = Raise TypeError.
Proof.
  intros Hl Hls Hc Tc Hparts.
  assert (Hjoin : bind_result (iterate capital) all_strings = Raise TypeError).
  { destruct (bind_result (iterate capital) all_strings) as [parts|e] eqn:E.
    - now destruct (Hparts parts).
    - now rewrite (joined_parts_raises capital e E). }
  unfold normalize_item. cbn [getitem]. rewrite Hl. cbn [bind_result].
  destruct (truthy languages) eqn:Tl.
  - destruct (Hls Tl) as [m ->]. cbn [values bind_result setitem getitem].
    rewrite lookup_update_other by reflexivity.
    rewrite Hc. cbn [bind_result]. rewrite Tc.
    destruct (iterate capital) as [vs|e]; cbn [bind_result] in Hjoin |- *.
    + now rewrite Hjoin.
    + now injection Hjoin as ->.
  - cbn [bind_result getitem]. rewrite Hc. cbn [bind_result]. rewrite Tc.
    destruct (iterate capital) as [vs|e]; cbn [bind_result] in Hjoin |- *.
    + now rewrite Hjoin.
    + now injection Hjoin as ->.
Qed.

(** X21: a [capital] given as a plain string instead of a list is
    joined character by character. *)
Theorem capital_string_is_split (fields name : list (string * json))
  (languages native_name : json) (s : string) :
  lookup "languages" fields = Some languages ->
  languages_shape languages ->
  lookup "capital" fields = Some (JStr s) ->
  s <> "" ->
  lookup "name" fields = Some (JObj name) ->
  lookup "nativeName" name = Some native_name ->
  exists out,
    normalize_item py_repr (JObj fields) = Ok (JObj out)
    /\ lookup "capital" out = Some (JStr (join ", " (chars_of s))).
Proof.
  intros Hl Hls Hc Hs Hn Hnn.
  assert (Tc : truthy (JStr s) = true).
  { cbn [truthy]. destruct (String.eqb s "") eqn:E; [| reflexivity].
    apply String.eqb_eq in E. contradiction. }
  unfold normalize_item. cbn [getitem]. rewrite Hl. cbn [bind_result].
  destruct (truthy languages) eqn:Tl;
    [destruct (Hls Tl) as [m ->]; cbn [values bind_result setitem getitem];
     rewrite lookup_update_other by reflexivity
    | cbn [bind_result getitem]];
    rewrite Hc; cbn [bind_result]; rewrite Tc;
    cbn [iterate bind_result]; rewrite all_strings_of_strings;
    cbn [bind_result setitem getitem];
    rewrite ?lookup_update_other by reflexivity;
    rewrite Hn; cbn [bind_result getitem]; rewrite Hnn; cbn [bind_result];
    destruct (truthy native_name); cbn [delitem bind_result setitem];
    rewrite ?Hnn; cbn [bind_result];
    (eexists; split; [reflexivity |]);
    rewrite ?lookup_update_other by reflexivity;
    apply lookup_update_same.
Qed.

(** The loop over the records with records already collected. *)
Lemma normalize_items_app (items : list json) :
  forall acc : list json,
    normalize_items py_repr items acc
    = bind_result (normalize_items py_repr items [])
                  (fun out => Ok (acc ++ out)).
Proof.
  induction items as [|item rest IH]; intros acc.
  - cbn [normalize_items bind_result]. now rewrite app_nil_r.
  - cbn [normalize_items].
    destruct (normalize_item py_repr item) as [item'|e]; [| reflexivity].
    cbn [bind_result]. rewrite (IH (acc ++ [item'])), (IH ([] ++ [item'])).
    destruct (normalize_items py_repr rest []) as [out|e]; [| reflexivity].
    cbn [bind_result]. now rewrite <- app_assoc.
Qed.

(** X22: the loop over the records returns exactly when every record
    normalizes, with one normalized record per record and in the same
    order: one record that raises leaves no table at all. *)
Theorem normalize_items_all_or_nothing (items out : list json) :
  normalize_items py_repr items [] = Ok out
  <-> Forall2 (fun item item' => normalize_item py_repr item = Ok item')
              items out.
Proof.
  revert out. induction items as [|item rest IH]; intros out.
  - cbn [normalize_items]. split.
    + intros H. injection H as <-. constructor.
    + intros H. inversion H. reflexivity.
  - cbn [normalize_items]. split.
    + destruct (normalize_item py_repr item) as [item'|e] eqn:Hitem;
        [| discriminate].
      cbn [bind_result]. rewrite normalize_items_app.
      destruct (normalize_items py_repr rest []) as [tail|e] eqn:Hrest;
        [| discriminate].
      cbn [bind_result]. intros H. injection H as <-.
      simpl app.
      constructor; [exact Hitem | now apply IH].
    + intros H. inversion H as [|i item' r tail Hitem Hrest]; subst.
      rewrite Hitem. cbn [bind_result]. rewrite normalize_items_app.
      apply IH in Hrest. rewrite Hrest. reflexivity.
Qed.

End WithRepr.

Lemma languages_not_a_mapping_raises_witness :
  normalize_item (fun _ => "") (JObj languages_as_list) = Raise AttributeError.
Proof.
  apply (languages_not_a_mapping_raises (fun _ => "") languages_as_list
           (JArr [JStr "Dari"; JStr "Pashto"])).
  - reflexivity.
  - reflexivity.
  - intros m. discriminate.
Defined.

Lemma capital_not_joinable_raises_witness :
  normalize_item (fun _ => "") (JObj capital_as_number) = Raise TypeError.
Proof.
  apply (capital_not_joinable_raises (fun _ => "") capital_as_number
           (JObj [("prs", JStr "Dari")]) (JNum 5)).
  - reflexivity.
  - intros _. eexists. reflexivity.
  - reflexivity.
  - reflexivity.
  - intros parts. discriminate.
Defined.

Lemma capital_string_is_split_witness :
  exists out,
    normalize_item (fun _ => "") (JObj capital_as_string) = Ok (JObj out)
    /\ lookup "capital" out = Some (JStr (join ", " (chars_of "Kabul"))).
Proof.
  apply (capital_string_is_split (fun _ => "") capital_as_string
           [("common", JStr "Afghanistan"); ("nativeName", JObj [])]
           (JObj [("prs", JStr "Dari")]) (JObj []) "Kabul").
  - reflexivity.
  - intros _. eexists. reflexivity.
  - reflexivity.
  - discriminate.
  - reflexivity.
  - reflexivity.
Defined.

End Shapes.

(* ================================================================== *)
(** * The newest list of countries *)

Module Newest.

Lemma newest_first_maximum (w : World) (paths : list string) :
  forall best p,
    newest w best paths = p ->
    (p = best /\ forall q, In q paths -> (getctime w q <= getctime w best)%Z)
    \/ exists before after,
         paths = before ++ p :: after
         /\ (getctime w best < getctime w p)%Z
         /\ (forall q, In q before -> (getctime w q < getctime w p)%Z)
         /\ (forall q, In q after -> (getctime w q <= getctime w p)%Z).
Proof.
  induction paths as [|q rest IH]; intros best p H.
  - left. split; [now symmetry | intros q []].
  - cbn [newest] in H.
    destruct (getctime w best <? getctime w q)%Z eqn:E.
    + apply Z.ltb_lt in E. right.
      destruct (IH q p H) as [[-> Hrest] | [before [after [-> [Hq [Hb Ha]]]]]].
      * exists [], rest. repeat split; [exact E | intros x [] | exact Hrest].
      * exists (q :: before), after.
        repeat split; [lia | | exact Ha].
        intros x [<- | Hx]; [exact Hq | now apply Hb].
    + apply Z.ltb_ge in E.
      destruct (IH best p H) as [[-> Hrest] | [before [after [-> [Hq [Hb Ha]]]]]].
      * left. split; [reflexivity |].
        intros x [<- | Hx]; [exact E | now apply Hrest].
      * right. exists (q :: before), after.
        repeat split; [exact Hq | | exact Ha].
        intros x [<- | Hx]; [lia | now apply Hb].
Qed.

(** X23: the file the country step reads is the first of the newest
    among the lists found: every path before it in the listing is
    strictly older, no path after it is newer, and looking for it
    changes nothing. *)
Theorem max_by_ctime_first_newest (paths : list string) (w w' : World)
  (p : string) :
  max_by_ctime paths w = (Ok p, w') ->
  w' = w
  /\ exists before after,
       paths = before ++ p :: after
       /\ (forall q, In q before -> (getctime w q < getctime w p)%Z)
       /\ (forall q, In q after -> (getctime w q <= getctime w p)%Z).
Proof.
  unfold max_by_ctime. destruct paths as [|p0 rest]; [discriminate |].
  intros H. injection H as Hp <-. split; [reflexivity |].
  destruct (newest_first_maximum w rest p0 p Hp)
    as [[-> Hrest] | [before [after [-> [Hq [Hb Ha]]]]]].
  - exists [], rest. repeat split; [intros q [] | exact Hrest].
  - exists (p0 :: before), after. repeat split; [| exact Ha].
    intros x [<- | Hx]; [exact Hq | now apply Hb].
Qed.

Lemma max_by_ctime_first_newest_witness :
  listed_world flaky_service = listed_world flaky_service
  /\ exists before after,
       ["data/countries_list_2023-12-31T00-00-00.csv";
        "data/countries_list_2024-01-01T00-00-00.csv"]
       = before ++ "data/countries_list_2024-01-01T00-00-00.csv" :: after
       /\ (forall q, In q before ->
             (getctime (listed_world flaky_service) q
              < getctime (listed_world flaky_service)
                  "data/countries_list_2024-01-01T00-00-00.csv")%Z)
       /\ (forall q, In q after ->
             (getctime (listed_world flaky_service) q
              <= getctime (listed_world flaky_service)
                   "data/countries_list_2024-01-01T00-00-00.csv")%Z).
Proof.
  apply (max_by_ctime_first_newest
           ["data/countries_list_2023-12-31T00-00-00.csv";
            "data/countries_list_2024-01-01T00-00-00.csv"]
           (listed_world flaky_service) (listed_world flaky_service)
           "data/countries_list_2024-01-01T00-00-00.csv").
  vm_compute. reflexivity.
Defined.

End Newest.

(* ================================================================== *)
(** * The fact table and the list of countries agree *)

Module Consistency.

Import LabelFacts Countries FactTable FileFacts WorldStep.

Lemma nth_replace_nth {A : Type} (g : A -> A) (d : A) (p : nat) :
  g d = d ->
  forall l : list A,
    nth p (replace_nth p (g (nth p l d)) l) d = g (nth p l d).
Proof.
  intros Hd. induction p as [|q IH]; intros [|y rest]; cbn [replace_nth nth];
    auto.
Qed.

(** The cell of a kept column is found in the kept cells at the position
    of its label among the kept labels. *)
Lemma select_keeps_position (dropped : list string) (x : string) (d : value) :
  mem x dropped = false ->
  forall (labels : list string) (c : nat),
    index_of x labels = Some c ->
    exists p,
      index_of x (select (keep_mask dropped labels) labels) = Some p
      /\ forall cells : list value,
           nth p (select (keep_mask dropped labels) cells) d = nth c cells d.
Proof.
  intros Hkept. induction labels as [|y rest IH]; intros c Hc; [discriminate |].
  cbn [index_of] in Hc.
  change (keep_mask dropped (y :: rest))
    with (negb (mem y dropped) :: keep_mask dropped rest).
  destruct (String.eqb x y) eqn:E.
  - apply String.eqb_eq in E. subst y. injection Hc as <-.
    rewrite Hkept. cbn [negb select index_of]. rewrite String.eqb_refl.
    exists 0%nat. split; [reflexivity |]. now intros [|a cs].
  - destruct (index_of x rest) as [c'|]; [| discriminate].
    injection Hc as <-. destruct (IH c' eq_refl) as [p [Hp Hcells]].
    destruct (negb (mem y dropped)); cbn [select].
    + exists (S p). cbn [index_of]. rewrite E, Hp. split; [reflexivity |].
      intros [|a cs]; [now destruct c' | apply Hcells].
    + exists p. split; [exact Hp |].
      intros [|a cs]; [now destruct p, c' | apply Hcells].
Qed.

(** Only the code column and a column that has the name already are
    called [area_code_m49] after the rename. *)
Lemma renamed_to_code (y : string) :
  rename_label world_data_mapping y = "area_code_m49" ->
  y = "Area Code (M49)" \/ y = "area_code_m49".
Proof.
  unfold rename_label, world_data_mapping. cbn [find fst snd].
  destruct (String.eqb y "Area Code (M49)") eqn:E0;
    [apply String.eqb_eq in E0; now left |].
  repeat match goal with
         | |- context [if String.eqb y ?k then _ else _] =>
             destruct (String.eqb y k); [discriminate |]
         end.
  now right.
Qed.

Lemma index_of_renamed_code (cols : list string) (c : nat) :
  index_of "Area Code (M49)" cols = Some c ->
  mem "area_code_m49" cols = false ->
  index_of "area_code_m49" (map (rename_label world_data_mapping) cols) = Some c.
Proof.
  revert c. induction cols as [|y rest IH]; intros c Hc Hnew; [discriminate |].
  cbn [index_of map] in *. unfold mem in Hnew. cbn [existsb] in Hnew.
  apply orb_false_iff in Hnew. destruct Hnew as [Hy Hrest].
  destruct (String.eqb "Area Code (M49)" y) eqn:E.
  - apply String.eqb_eq in E. subst y. injection Hc as <-. reflexivity.
  - destruct (String.eqb "area_code_m49" (rename_label world_data_mapping y))
      eqn:R.
    + exfalso. apply String.eqb_eq in R. symmetry in R.
      destruct (renamed_to_code y R) as [-> | ->].
      * now rewrite String.eqb_refl in E.
      * now rewrite String.eqb_refl in Hy.
    + destruct (index_of "Area Code (M49)" rest) as [c'|]; [| discriminate].
      injection Hc as <-. now rewrite (IH c' eq_refl Hrest).
Qed.

Lemma data_of_mapped (h : list value -> list value) (cols : list string)
  (blocks : list (list row)) :
  data_of {| dcolumns := cols;
             partitions := map (map (fun r : row => (fst r, h (snd r)))) blocks |}
  = map h (map snd (concat blocks)).
Proof.
  unfold data_of. cbn [partitions].
  induction blocks as [|b rest IH]; [reflexivity |].
  cbn [map concat]. rewrite !map_app.
  f_equal; [rewrite !map_map; reflexivity | exact IH].
Qed.

(** The position of the code column of the fact table, and what its
    cells are. *)
Lemma fact_code_position (cols : list string) (c : nat) :
  index_of "Area Code (M49)" cols = Some c ->
  mem "area_code_m49" cols = false ->
  exists p,
    index_of "area_code_m49" (fact_columns cols) = Some p
    /\ (forall cells,
          nth p (select (keep_mask world_data_dropped
                           (map (rename_label world_data_mapping) cols)) cells)
              VNaN
          = nth c cells VNaN)
    /\ (forall cells,
          nth p (fact_cells cols p cells) VNaN
          = lstrip_cell "'" (nth c cells VNaN)).
Proof.
  intros Hc Hnew.
  destruct (select_keeps_position world_data_dropped "area_code_m49" VNaN
              eq_refl _ c (index_of_renamed_code cols c Hc Hnew))
    as [p [Hp Hcells]].
  exists p. split; [exact Hp |]. split; [exact Hcells |].
  intros cells. unfold fact_cells. cbv zeta.
  rewrite (nth_replace_nth (lstrip_cell "'") VNaN p eq_refl).
  now rewrite Hcells.
Qed.

(** X24: when both the list of countries and the fact table come out
    of a fact file, they hold the same codes: every code of the fact
    table has its row in the list of countries, and the list has no code
    the fact table lacks. *)
Theorem fact_codes_are_listed (ddf : DaskFrame) (countries : DataFrame)
  (fact : DaskFrame) :
  mem "area_code_m49" (dcolumns ddf) = false ->
  extract_countries ddf = Ok countries ->
  transform_world_data ddf = Ok fact ->
  exists p,
    index_of "area_code_m49" (dcolumns fact) = Some p
    /\ forall code,
         In code (codes_at 1 (values_of countries))
         <-> In code (codes_at p (data_of fact)).
Proof.
  intros Hnew Hextract Htransform.
  destruct (extract_countries_cells ddf countries Hextract)
    as [_ [area [c [_ [Hc Hcells]]]]].
  destruct (fact_code_position (dcolumns ddf) c Hc Hnew) as [p [Hp [_ Hfact]]].
  rewrite transform_world_data_closed in Htransform.
  destruct (find _ world_data_dropped); [discriminate |].
  rewrite Hp in Htransform.
  destruct (str_accessor_ok _); [| discriminate].
  injection Htransform as <-.
  exists p. split; [exact Hp |].
  intros code. rewrite data_of_mapped. unfold codes_at. split.
  - intros H. apply in_map_iff in H. destruct H as [cells [<- Hin]].
    apply Hcells in Hin. destruct Hin as [source [Hsource ->]].
    apply in_map_iff. exists (fact_cells (dcolumns ddf) p source).
    split; [now rewrite Hfact | now apply in_map].
  - intros H. apply in_map_iff in H. destruct H as [cells [<- Hin]].
    apply in_map_iff in Hin. destruct Hin as [source [<- Hsource]].
    apply in_map_iff. exists [nth area source VNaN; lstrip_cell "'" (nth c source VNaN)].
    split; [now rewrite Hfact |].
    apply Hcells. now exists source.
Qed.





Lemma fact_codes_are_listed_witness :
  exists p,
    index_of "area_code_m49" (dcolumns small_fact) = Some p
    /\ forall code,
         In code (codes_at 1 (values_of small_countries))
         <-> In code (codes_at p (data_of small_fact)).
Proof.
  apply (fact_codes_are_listed (dd_read_csv [] world_data_csv)
           small_countries small_fact).
  - reflexivity.
  - vm_compute. reflexivity.
  - vm_compute. reflexivity.
Defined.


End Consistency.

(* ================================================================== *)
(** * What is written, read back *)

Module ReadBack.

Import Countries.

Lemma lstrip_no_leading (chars s : string) (c : ascii) (rest : string) :
  lstrip chars s = String c rest -> char_in c chars = false.
Proof.
  induction s as [|d s' IH]; [discriminate |].
  cbn [lstrip]. destruct (char_in d chars) eqn:E; [exact IH |].
  intros H. injection H as <- _. exact E.
Qed.

(** X26: no code of the list of countries starts with a quote: the
    quotes the fact file puts in front of a code are all gone, however
    many there were. *)
Theorem listed_codes_have_no_quote (ddf : DaskFrame) (countries : DataFrame)
  (cells : list value) (s : string) :
  extract_countries ddf = Ok countries ->
  In cells (values_of countries) ->
  nth 1 cells VNaN = VStr s ->
  startswith "'" s = false.
Proof.
  intros Hextract Hin Hcode.
  destruct (extract_countries_cells ddf countries Hextract)
    as [_ [area [code [_ [_ Hcells]]]]].
  apply Hcells in Hin. destruct Hin as [source [_ ->]].
  cbn [nth] in Hcode. unfold lstrip_cell in Hcode.
  destruct (nth code source VNaN) as [z|t|]; try discriminate.
  injection Hcode as Hs.
  destruct s as [|c rest]; [reflexivity |].
  pose proof (lstrip_no_leading _ _ _ _ Hs) as Hc.
  cbn [char_in] in Hc. rewrite orb_false_r in Hc.
  unfold startswith. cbn [prefix].
  destruct (Ascii.ascii_dec "'" c) as [<- | Hne]; [| reflexivity].
  now rewrite Ascii.eqb_refl in Hc.
Qed.




Lemma listed_codes_have_no_quote_witness :
  startswith "'" "004" = false.
Proof.
  apply (listed_codes_have_no_quote (dd_read_csv [] world_data_csv)
           small_countries [VStr "Afghanistan"; VStr "004"] "004").
  - vm_compute. reflexivity.
  - left. reflexivity.
  - reflexivity.
Defined.


End ReadBack.

(* ================================================================== *)
(** * From the fact step to the country step *)

Module Handover.

Import FileFacts FactTable Codes.













End Handover.
